(** * Task manager backend (server.js): points, streaks, achievements,
      completion percentages and per-user isolation.

    A shallow embedding of the Express/Mongoose server.  The MongoDB
    collections are lists of documents inside a [Store]; every route handler
    is a function from the store to a new store and an HTTP response.  Code
    that runs inside a [try { ... } catch] block lives in a small state and
    exception monad [M].  JavaScript numbers that the server only adds and
    compares (points, streak, orders, millisecond timestamps) are integers
    in [Z]; the completion percentage, which the server obtains from a
    double-precision division and product, is computed on binary64 floats. *)

From Stdlib Require Import ZArith NArith QArith Qround Bool List String Lia.
From Stdlib Require Import Floats Uint63 FinFun Sorted.
Import ListNotations.

Local Open Scope string_scope.
Local Open Scope list_scope.
Local Open Scope Z_scope.

(** ** Schemas *)

(** A Mongo [ObjectId]; only equality and freshness matter. *)
Definition ObjectId := N.
Bind Scope N_scope with ObjectId.

(** A JavaScript [Date], as milliseconds since the epoch. *)
Definition Date := Z.

Inductive TaskType := Daily | Deadline.
Inductive Priority := Low | Medium | High.
Inductive Status := Pending | Completed.

Definition TaskType_eqb (a b : TaskType) : bool :=
  match a, b with Daily, Daily | Deadline, Deadline => true | _, _ => false end.
Definition Priority_eqb (a b : Priority) : bool :=
  match a, b with
  | Low, Low | Medium, Medium | High, High => true
  | _, _ => false
  end.
Definition Status_eqb (a b : Status) : bool :=
  match a, b with Pending, Pending | Completed, Completed => true | _, _ => false end.

(** userSchema *)
Record UserDoc := mkUser {
  user_id : ObjectId;
  user_name : string;
  user_email : string;
  user_password : string;
  user_points : Z;
  user_streak : Z;
  user_lastActiveDate : Date;
  user_createdAt : Date
}.

(** sectionSchema *)
Record SectionDoc := mkSection {
  sec_id : ObjectId;
  sec_userId : ObjectId;
  sec_title : string;
  sec_icon : string;
  sec_order : Z;
  sec_createdAt : Date
}.

(** subsectionSchema *)
Record SubsectionDoc := mkSubsection {
  sub_id : ObjectId;
  sub_sectionId : ObjectId;
  sub_userId : ObjectId;
  sub_title : string;
  sub_order : Z;
  sub_createdAt : Date
}.

(** taskSchema *)
Record TaskDoc := mkTask {
  task_id : ObjectId;
  task_userId : ObjectId;
  task_sectionId : ObjectId;
  task_subsectionId : option ObjectId;
  task_title : string;
  task_type : TaskType;
  task_targetDate : option Date;
  task_deadline : option Date;
  task_priority : Priority;
  task_tags : list string;
  task_status : Status;
  task_completedAt : option Date;
  task_createdAt : Date
}.

(** achievementSchema *)
Record AchievementDoc := mkAchievement {
  unlock_id : ObjectId;
  unlock_userId : ObjectId;
  unlock_achievementId : string;
  unlock_unlockedAt : Date
}.

(** ** The store: one list of documents per model, in insertion order,
    and the next fresh [ObjectId]. *)
Record Store := mkStore {
  users : list UserDoc;
  sections : list SectionDoc;
  subsections : list SubsectionDoc;
  tasks : list TaskDoc;
  achievements : list AchievementDoc;
  nextId : ObjectId
}.

Definition withUsers (us : list UserDoc) (st : Store) : Store :=
  mkStore us (sections st) (subsections st) (tasks st) (achievements st) (nextId st).
Definition withSections (ss : list SectionDoc) (st : Store) : Store :=
  mkStore (users st) ss (subsections st) (tasks st) (achievements st) (nextId st).
Definition withSubsections (ss : list SubsectionDoc) (st : Store) : Store :=
  mkStore (users st) (sections st) ss (tasks st) (achievements st) (nextId st).
Definition withTasks (ts : list TaskDoc) (st : Store) : Store :=
  mkStore (users st) (sections st) (subsections st) ts (achievements st) (nextId st).
Definition withAchievements (acs : list AchievementDoc) (st : Store) : Store :=
  mkStore (users st) (sections st) (subsections st) (tasks st) acs (nextId st).
Definition bumpId (st : Store) : Store :=
  mkStore (users st) (sections st) (subsections st) (tasks st) (achievements st)
          (N.succ (nextId st)).

(** ** Generic collection operations *)

(** [doc.save()] on a loaded document and [findOneAndDelete]: both act on
    the first document that matches. *)
Fixpoint replaceFirst {A} (p : A -> bool) (d : A) (l : list A) : list A :=
  match l with
  | [] => []
  | x :: r => if p x then d :: r else x :: replaceFirst p d r
  end.

Fixpoint removeFirst {A} (p : A -> bool) (l : list A) : list A :=
  match l with
  | [] => []
  | x :: r => if p x then r else x :: removeFirst p r
  end.

(** [deleteMany(filter)] keeps the documents that do not match. *)
Definition deleteMany {A} (p : A -> bool) (l : list A) : list A :=
  filter (fun x => negb (p x)) l.

Definition countDocuments {A} (p : A -> bool) (l : list A) : nat :=
  List.length (filter p l).

Definition isSome {A} (o : option A) : bool :=
  match o with Some _ => true | None => false end.

(** ** The monad of code inside try/catch: the store is threaded through
    and a thrown exception keeps the writes done before it. *)

Inductive Result (A : Type) :=
| Ok (a : A)
| Throw (e : string).
Arguments Ok {A} a.
Arguments Throw {A} e.

Definition M (A : Type) := Store -> Store * Result A.

Definition ret {A} (a : A) : M A := fun st => (st, Ok a).
Definition throw {A} (e : string) : M A := fun st => (st, Throw e).
Definition bind {A B} (m : M A) (k : A -> M B) : M B :=
  fun st =>
    match m st with
    | (st1, Ok a) => k a st1
    | (st1, Throw e) => (st1, Throw e)
    end.
Definition gets {A} (f : Store -> A) : M A := fun st => (st, Ok (f st)).
Definition modify (f : Store -> Store) : M unit := fun st => (f st, Ok tt).

Notation "x <- m ;; k" := (bind m (fun x => k))
  (at level 61, m at next level, right associativity).
Notation "m ;;; k" := (bind m (fun _ => k))
  (at level 61, right associativity).

(** HTTP responses: [res.status(code).json(body)] and
    [res.status(code).json({ error })]. *)
Inductive Response (A : Type) :=
| Json (code : nat) (body : A)
| Error (code : nat) (error : string).
Arguments Json {A} code body.
Arguments Error {A} code error.

(** [try { body } catch (err) { res.status(500).json(...) }] *)
Definition tryCatch {A} (body : M (Response A)) : Store -> Store * Response A :=
  fun st =>
    match body st with
    | (st1, Ok r) => (st1, r)
    | (st1, Throw _) => (st1, Error 500 "Server error")
    end.

(** ** Model queries used by the routes *)

Definition User_findById (userId : ObjectId) : M (option UserDoc) :=
  gets (fun st => find (fun u => N.eqb (user_id u) userId) (users st)).

Definition User_findOneByEmail (email : string) : M (option UserDoc) :=
  gets (fun st => find (fun u => String.eqb (user_email u) email) (users st)).

(** [user.save()] on a loaded user.  Users are created by signup alone,
    which validates them, and no route edits [name], [email] or
    [password], so the validation that precedes the write passes. *)
Definition User_save (u : UserDoc) : M unit :=
  modify (fun st =>
    withUsers (replaceFirst (fun x => N.eqb (user_id x) (user_id u)) u (users st)) st).

Definition Task_findOne (id userId : ObjectId) : M (option TaskDoc) :=
  gets (fun st =>
    find (fun t => N.eqb (task_id t) id && N.eqb (task_userId t) userId) (tasks st)).

(** [task.save()] on a loaded task.  Saving validates the document first:
    [title] is required and an empty string does not pass, which can only
    happen to a stored task through PUT /api/tasks/:id, whose
    [findOneAndUpdate] runs no validators.  The other required fields
    always hold a value in [TaskDoc]. *)
Definition Task_save (t : TaskDoc) : M unit :=
  fun st =>
    if String.eqb (task_title t) "" then (st, Throw "ValidationError")
    else
      (withTasks (replaceFirst (fun x => N.eqb (task_id x) (task_id t)) t (tasks st)) st,
       Ok tt).

Definition Task_countDocuments (p : TaskDoc -> bool) : M nat :=
  gets (fun st => countDocuments p (tasks st)).

Definition Achievement_findOne (userId : ObjectId) (achievementId : string)
  : M (option AchievementDoc) :=
  gets (fun st =>
    find (fun a => N.eqb (unlock_userId a) userId
                   && String.eqb (unlock_achievementId a) achievementId)
         (achievements st)).

(** [new Achievement({ userId, achievementId }).save()]; [unlockedAt]
    defaults to the time of construction. *)
Definition Achievement_create (now : Date) (userId : ObjectId) (achievementId : string)
  : M unit :=
  modify (fun st =>
    bumpId (withAchievements
              (achievements st ++ [mkAchievement (nextId st) userId achievementId now])
              st)).

(** ** Middleware *)

(** What [req.header('Authorization')] and [jwt.verify] leave of the
    request: no token, a token that fails verification, or the [userId]
    of the verified payload. *)
Inductive Authorization :=
| NoToken
| InvalidToken
| Bearer (userId : ObjectId).

Definition authMiddleware {A} (auth : Authorization)
    (next : UserDoc -> Store -> Store * Response A) : Store -> Store * Response A :=
  fun st =>
    match auth with
    | NoToken => (st, Error 401 "No token provided")
    | InvalidToken => (st, Error 401 "Invalid token")
    | Bearer userId =>
        match find (fun u => N.eqb (user_id u) userId) (users st) with
        | None => (st, Error 401 "User not found")
        | Some user => next user st
        end
    end.

(** ** Achievements *)

(** An entry of the [ACHIEVEMENTS] table; [ach_check] is its [check]
    closure, which queries the store. *)
Record AchievementDef := mkAch {
  ach_id : string;
  ach_title : string;
  ach_desc : string;
  ach_icon : string;
  ach_points : Z;
  ach_check : ObjectId -> M bool
}.

(** [{ userId, status: 'completed' }] *)
Definition completedOf (userId : ObjectId) (t : TaskDoc) : bool :=
  N.eqb (task_userId t) userId && Status_eqb (task_status t) Completed.

(** The aggregation operator [$lt] on two date fields: a missing or null
    field sorts before every date. *)
Definition bson_lt (a b : option Date) : bool :=
  match a, b with
  | Some x, Some y => x <? y
  | None, Some _ => true
  | _, None => false
  end.

(** [{ userId, status: 'completed', type: 'deadline',
       $expr: { $lt: ['$completedAt', '$deadline'] } }] *)
Definition earlyOf (userId : ObjectId) (t : TaskDoc) : bool :=
  N.eqb (task_userId t) userId && Status_eqb (task_status t) Completed
  && TaskType_eqb (task_type t) Deadline
  && bson_lt (task_completedAt t) (task_deadline t).

Definition checkCompleted (n : nat) (userId : ObjectId) : M bool :=
  c <- Task_countDocuments (completedOf userId) ;;
  ret (n <=? c)%nat.

(** [const u = await User.findById(userId); return f(u)]: reading a field
    of [null] throws. *)
Definition checkUser (f : UserDoc -> bool) (userId : ObjectId) : M bool :=
  u <- User_findById userId ;;
  match u with
  | Some u => ret (f u)
  | None => throw "TypeError"
  end.

Definition checkEarly (n : nat) (userId : ObjectId) : M bool :=
  c <- Task_countDocuments (earlyOf userId) ;;
  ret (n <=? c)%nat.

(** The entries of the table, named by their [id]. *)
Definition first_task : AchievementDef :=
  mkAch "first_task" "First Steps" "Complete your first task" "🎯" 50
        (checkCompleted 1).
Definition streak_7 : AchievementDef :=
  mkAch "streak_7" "On Fire" "7 day streak" "🔥" 200
        (checkUser (fun u => 7 <=? user_streak u)).
Definition tasks_100 : AchievementDef :=
  mkAch "tasks_100" "Centurion" "Complete 100 tasks" "💯" 500
        (checkCompleted 100).
Definition early_10 : AchievementDef :=
  mkAch "early_10" "Early Bird" "Complete 10 tasks before deadline" "🌅" 150
        (checkEarly 10).
Definition points_1000 : AchievementDef :=
  mkAch "points_1000" "Point Master" "Earn 1000 points" "⭐" 300
        (checkUser (fun u => 1000 <=? user_points u)).
Definition tasks_10 : AchievementDef :=
  mkAch "tasks_10" "Getting Started" "Complete 10 tasks" "🚀" 100
        (checkCompleted 10).

Definition ACHIEVEMENTS : list AchievementDef :=
  [first_task; streak_7; tasks_100; early_10; points_1000; tasks_10].

(** An element of the returned list: [{ ...ach, unlockedAt: new Date() }]. *)
Record Unlocked := mkUnlocked {
  unl_ach : AchievementDef;
  unl_unlockedAt : Date
}.

Definition addPoints (n : Z) (u : UserDoc) : UserDoc :=
  mkUser (user_id u) (user_name u) (user_email u) (user_password u)
         (user_points u + n) (user_streak u) (user_lastActiveDate u)
         (user_createdAt u).

(** The body of [for (const ach of ACHIEVEMENTS)], over the entries still
    to visit; [now] is the clock reading used as [unlockedAt]. *)
Fixpoint checkLoop (now : Date) (userId : ObjectId)
    (catalog : list AchievementDef) (newAchievements : list Unlocked)
  : M (list Unlocked) :=
  match catalog with
  | [] => ret newAchievements
  | ach :: rest =>
      existing <- Achievement_findOne userId (ach_id ach) ;;
      ok <- (if isSome existing then ret false else ach_check ach userId) ;;
      if ok : bool then
        Achievement_create now userId (ach_id ach) ;;;
        user <- User_findById userId ;;
        match user with
        | None => throw "TypeError"
        | Some user =>
            User_save (addPoints (ach_points ach) user) ;;;
            checkLoop now userId rest (newAchievements ++ [mkUnlocked ach now])
        end
      else checkLoop now userId rest newAchievements
  end.

Definition checkAchievements (now : Date) (userId : ObjectId) : M (list Unlocked) :=
  checkLoop now userId ACHIEVEMENTS [].

(** ** Complete task *)

Record CompleteBody := mkCompleteBody {
  body_task : TaskDoc;
  pointsEarned : Z;
  totalPoints : Z;
  newAchievements : list Unlocked
}.

(** The three clock readings of a completion request: [task.completedAt =
    new Date()], the [new Date()] compared with the deadline, and the one
    used while unlocking achievements. *)
Record Clock := mkClock {
  completedNow : Date;
  awardNow : Date;
  unlockNow : Date
}.

Definition markCompleted (now : Date) (t : TaskDoc) : TaskDoc :=
  mkTask (task_id t) (task_userId t) (task_sectionId t) (task_subsectionId t)
         (task_title t) (task_type t) (task_targetDate t) (task_deadline t)
         (task_priority t) (task_tags t) Completed (Some now) (task_createdAt t).

(** [let points = 50; if (high) points = 100; else if (medium) points = 75;]
    then the deadline bonus. *)
Definition awardPoints (now : Date) (task : TaskDoc) : Z :=
  let points := 50 in
  let points :=
    if Priority_eqb (task_priority task) High then 100
    else if Priority_eqb (task_priority task) Medium then 75
    else points in
  if TaskType_eqb (task_type task) Deadline
     && match task_deadline task with
        | Some deadline => now <? deadline
        | None => false
        end
  then points + 25 else points.

(** POST /api/tasks/:id/complete *)
Definition completeTask (clk : Clock) (auth : Authorization) (id : ObjectId)
  : Store -> Store * Response CompleteBody :=
  authMiddleware auth (fun req_user =>
    tryCatch (
      task <- Task_findOne id (user_id req_user) ;;
      match task with
      | None => ret (Error 404 "Task not found")
      | Some task =>
          if Status_eqb (task_status task) Completed
          then ret (Error 400 "Task already completed")
          else
            let task := markCompleted (completedNow clk) task in
            Task_save task ;;;
            let points := awardPoints (awardNow clk) task in
            let req_user := addPoints points req_user in
            User_save req_user ;;;
            achievements <- checkAchievements (unlockNow clk) (user_id req_user) ;;
            ret (Json 200 (mkCompleteBody task points (user_points req_user)
                                          achievements))
      end)).

(** ** Completion percentage *)

(** A non-negative integer as a JavaScript number (exact below 2^53). *)
Definition toNumber (n : Z) : float := PrimFloat.of_uint63 (Uint63.of_Z n).

(** [Math.round]: the integer closest to [x], ties going towards
    +infinity; NaN and the infinities are returned as they are.  A finite
    double is [m * 2^e]; with [e >= 0] it is already an integer. *)
Definition Math_round (x : float) : float :=
  match Prim2SF x with
  | S754_finite s m e =>
      if e <? 0 then
        let v := if s then Z.neg m else Z.pos m in
        let r := (2 * v + 2 ^ (- e)) / 2 ^ (1 - e) in
        if s then PrimFloat.opp (toNumber (Z.abs r)) else toNumber r
      else x
  | _ => x
  end.

(** [length ? Math.round((completed / length) * 100) : 0] *)
Definition completionPercent (completed length : nat) : float :=
  if (length =? 0)%nat then 0%float
  else Math_round
         (PrimFloat.mul
            (PrimFloat.div (toNumber (Z.of_nat completed)) (toNumber (Z.of_nat length)))
            100%float).

Definition isCompleted (t : TaskDoc) : bool := Status_eqb (task_status t) Completed.

(** [tasks.filter(t => t.status === 'completed').length] and the percentage
    of a list of tasks. *)
Definition percentOf (ts : list TaskDoc) : float :=
  completionPercent (List.length (filter isCompleted ts)) (List.length ts).

(** ** Section routes *)

(** [.sort('order')]: ascending and stable. *)
Fixpoint insertBy {A} (key : A -> Z) (x : A) (l : list A) : list A :=
  match l with
  | [] => [x]
  | y :: r => if key y <=? key x then y :: insertBy key x r else x :: l
  end.

Definition sortBy {A} (key : A -> Z) (l : list A) : list A :=
  fold_left (fun acc x => insertBy key x acc) l [].

Record SubsectionView := mkSubsectionView {
  subv_doc : SubsectionDoc;
  subv_tasks : list TaskDoc;
  subv_completionPercent : float
}.

Record SectionView := mkSectionView {
  secv_doc : SectionDoc;
  secv_subsections : list SubsectionView;
  secv_tasks : list TaskDoc;
  secv_completionPercent : float
}.

Definition optId_eqb (a : option ObjectId) (b : ObjectId) : bool :=
  match a with Some x => N.eqb x b | None => false end.

(** The inner [subsections.map(async (sub) => ...)]. *)
Definition subsectionView (st : Store) (sub : SubsectionDoc) : SubsectionView :=
  let tasks := filter (fun t => optId_eqb (task_subsectionId t) (sub_id sub)) (tasks st) in
  mkSubsectionView sub tasks (percentOf tasks).

(** The outer [sections.map(async (section) => ...)]. *)
Definition sectionView (st : Store) (section : SectionDoc) : SectionView :=
  let subsections :=
    sortBy sub_order
      (filter (fun s => N.eqb (sub_sectionId s) (sec_id section)) (subsections st)) in
  let sectionTasks :=
    filter (fun t => N.eqb (task_sectionId t) (sec_id section)
                     && negb (isSome (task_subsectionId t)))
           (tasks st) in
  let subsWithTasks := map (subsectionView st) subsections in
  let allTasks := sectionTasks ++ flat_map subv_tasks subsWithTasks in
  mkSectionView section subsWithTasks sectionTasks (percentOf allTasks).

(** GET /api/sections *)
Definition getSections (auth : Authorization)
  : Store -> Store * Response (list SectionView) :=
  authMiddleware auth (fun req_user =>
    tryCatch (
      sections <- gets (fun st =>
        sortBy sec_order
          (filter (fun s => N.eqb (sec_userId s) (user_id req_user)) (sections st))) ;;
      result <- gets (fun st => map (sectionView st) sections) ;;
      ret (Json 200 result))).

Definition ownSection (userId : ObjectId) (s : SectionDoc) : bool :=
  N.eqb (sec_userId s) userId.

(** POST /api/sections.  [title] is required by the schema, so saving
    without it, or with the empty string, throws a validation error; a
    missing [icon] takes the schema default. *)
Definition createSection (now : Date) (auth : Authorization)
    (title icon : option string) : Store -> Store * Response SectionView :=
  authMiddleware auth (fun req_user =>
    tryCatch (
      count <- gets (fun st => countDocuments (ownSection (user_id req_user)) (sections st)) ;;
      match title with
      | None => throw "ValidationError"
      | Some title =>
          if String.eqb title "" then throw "ValidationError"
          else
            id <- gets nextId ;;
            let section :=
              mkSection id (user_id req_user) title
                        (match icon with Some i => i | None => "📁" end)
                        (Z.of_nat count) now in
            modify (fun st => bumpId (withSections (sections st ++ [section]) st)) ;;;
            ret (Json 201 (mkSectionView section [] [] 0%float))
      end)).

(** DELETE /api/sections/:id *)
Definition deleteSection (auth : Authorization) (id : ObjectId)
  : Store -> Store * Response string :=
  authMiddleware auth (fun req_user =>
    tryCatch (
      modify (fun st =>
        withTasks (deleteMany (fun t => N.eqb (task_sectionId t) id) (tasks st)) st) ;;;
      modify (fun st =>
        withSubsections
          (deleteMany (fun s => N.eqb (sub_sectionId s) id) (subsections st)) st) ;;;
      modify (fun st =>
        withSections
          (removeFirst (fun s => N.eqb (sec_id s) id
                                 && N.eqb (sec_userId s) (user_id req_user))
                       (sections st)) st) ;;;
      ret (Json 200 "Section deleted"))).

(** DELETE /api/subsections/:id *)
Definition deleteSubsection (auth : Authorization) (id : ObjectId)
  : Store -> Store * Response string :=
  authMiddleware auth (fun req_user =>
    tryCatch (
      modify (fun st =>
        withTasks (deleteMany (fun t => optId_eqb (task_subsectionId t) id) (tasks st)) st) ;;;
      modify (fun st =>
        withSubsections
          (removeFirst (fun s => N.eqb (sub_id s) id
                                 && N.eqb (sub_userId s) (user_id req_user))
                       (subsections st)) st) ;;;
      ret (Json 200 "Subsection deleted"))).

(** DELETE /api/tasks/:id, the sibling route that does filter by owner. *)
Definition deleteTask (auth : Authorization) (id : ObjectId)
  : Store -> Store * Response string :=
  authMiddleware auth (fun req_user =>
    tryCatch (
      modify (fun st =>
        withTasks
          (removeFirst (fun t => N.eqb (task_id t) id
                                 && N.eqb (task_userId t) (user_id req_user))
                       (tasks st)) st) ;;;
      ret (Json 200 "Task deleted"))).

(** ** Routes that depend on the host: password hashing, string case and
    the local time zone *)

Record LoginBody := mkLoginBody {
  login_token : ObjectId;
  login_id : ObjectId;
  login_name : string;
  login_email : string;
  login_points : Z;
  login_streak : Z
}.

Record DaySummary := mkDaySummary {
  day_date : Date;
  day_total : nat;
  day_completed : nat;
  day_percent : float
}.

Definition setStreak (n : Z) (u : UserDoc) : UserDoc :=
  mkUser (user_id u) (user_name u) (user_email u) (user_password u)
         (user_points u) n (user_lastActiveDate u) (user_createdAt u).

Definition setLastActiveDate (d : Date) (u : UserDoc) : UserDoc :=
  mkUser (user_id u) (user_name u) (user_email u) (user_password u)
         (user_points u) (user_streak u) d (user_createdAt u).

Definition msPerDay : Z := 1000 * 60 * 60 * 24.

(** [{ $gte: lo, $lte: hi }] on a date field; null or missing never
    matches. *)
Definition inRange (lo hi : Date) (d : option Date) : bool :=
  match d with
  | Some x => (lo <=? x) && (x <=? hi)
  | None => false
  end.

(** [t.targetDate || t.deadline] *)
Definition anchorDate (t : TaskDoc) : option Date :=
  match task_targetDate t with
  | Some d => Some d
  | None => task_deadline t
  end.

(** The values of [i] visited by [for (let i = n; i >= 0; i--)]. *)
Fixpoint downFrom (n : nat) : list nat :=
  match n with
  | O => [O]
  | S k => n :: downFrom k
  end.

Section Host.

(** [bcrypt.compare(password, hash)] *)
Variable bcrypt_compare : string -> string -> bool.
(** [String.prototype.toLowerCase] *)
Variable toLowerCase : string -> string.
(** [new Date(t).setHours(0,0,0,0)]: local midnight of the day of [t]. *)
Variable setHoursZero : Date -> Date.
(** The local calendar day that [toDateString] prints: two dates have
    equal [toDateString()] exactly when they have equal [calendarDay]. *)
Variable calendarDay : Date -> Z.

(** [(today - lastActive) / (1000 * 60 * 60 * 24)].  Both operands are
    integers far below 2^53, so the double quotient compares with 1
    exactly as the rational quotient does. *)
Definition dayDiffOf (todayNow lastActiveDate : Date) : Q :=
  let today := setHoursZero todayNow in
  let lastActive := setHoursZero lastActiveDate in
  (inject_Z (today - lastActive) / inject_Z msPerDay)%Q.

(** The streak update of the login route. *)
Definition updateStreak (todayNow : Date) (user : UserDoc) : UserDoc :=
  let dayDiff := dayDiffOf todayNow (user_lastActiveDate user) in
  if Qeq_bool dayDiff 1 then setStreak (user_streak user + 1) user
  else if negb (Qle_bool dayDiff 1) then setStreak 1 user
  else user.

(** POST /api/auth/login.  [todayNow] is the clock read for [today],
    [activeNow] the one stored in [lastActiveDate]. *)
Definition login (todayNow activeNow : Date) (email password : string)
  : Store -> Store * Response LoginBody :=
  tryCatch (
    user <- User_findOneByEmail (toLowerCase email) ;;
    match user with
    | None => ret (Error 400 "Invalid credentials")
    | Some user =>
        if negb (bcrypt_compare password (user_password user))
        then ret (Error 400 "Invalid credentials")
        else
          let user := updateStreak todayNow user in
          let user := setLastActiveDate activeNow user in
          User_save user ;;;
          ret (Json 200 (mkLoginBody (user_id user) (user_id user) (user_name user)
                                     (user_email user) (user_points user)
                                     (user_streak user)))
    end).

(** The query of the weekly route. *)
Definition weeklyQuery (userId : ObjectId) (weekAgo today : Date) (t : TaskDoc) : bool :=
  N.eqb (task_userId t) userId
  && (inRange weekAgo today (task_targetDate t)
      || inRange weekAgo today (task_deadline t)).

(** [new Date(td).toDateString() === d.toDateString()]; a task without
    either date never passes the query above. *)
Definition sameDay (t : TaskDoc) (d : Date) : bool :=
  match anchorDate t with
  | Some td => calendarDay td =? calendarDay d
  | None => false
  end.

Definition daySummary (today : Date) (tasks : list TaskDoc) (i : nat) : DaySummary :=
  let d := today - Z.of_nat i * 24 * 60 * 60 * 1000 in
  let dayTasks := filter (fun t => sameDay t d) tasks in
  let completed := List.length (filter isCompleted dayTasks) in
  mkDaySummary d (List.length dayTasks) completed
               (completionPercent completed (List.length dayTasks)).

(** GET /api/stats/weekly *)
Definition weekly (now : Date) (auth : Authorization)
  : Store -> Store * Response (list DaySummary) :=
  authMiddleware auth (fun req_user =>
    tryCatch (
      let today := now in
      let weekAgo := today - 7 * 24 * 60 * 60 * 1000 in
      tasks <- gets (fun st =>
        filter (weeklyQuery (user_id req_user) weekAgo today) (tasks st)) ;;
      ret (Json 200 (map (daySummary today tasks) (downFrom 6))))).

End Host.

(** A host whose local time zone is UTC. *)
Definition utcMidnight (t : Date) : Date := t / msPerDay * msPerDay.
Definition utcDay (t : Date) : Z := t / msPerDay.

(** A host whose zone has one daylight-saving change in the period looked
    at: local time is UTC plus [before] until the instant [change], and UTC
    plus [after] from then on. *)
Definition zoneOffset (change before after : Z) (t : Date) : Z :=
  if t <? change then before else after.

(** The number of the local calendar day of [t]. *)
Definition zoneDay (change before after : Z) (t : Date) : Z :=
  (t + zoneOffset change before after t) / msPerDay.

(** [new Date(t).setHours(0,0,0,0)] on such a host: the instant at which
    the local day of [t] began. *)
Definition zoneMidnight (change before after : Z) (t : Date) : Date :=
  let start := zoneDay change before after t * msPerDay in
  if start - before <? change then start - before else start - after.

(** ** The remaining routes *)

Record SignupBody := mkSignupBody {
  signup_token : ObjectId;
  signup_id : ObjectId;
  signup_name : string;
  signup_email : string;
  signup_points : Z;
  signup_streak : Z
}.

(** [user.save()] of a new user: the schema requires [name], [email] and
    [password] (an empty string does not pass), and the unique index on
    [email] rejects a second document with the same address. *)
Definition User_create (u : UserDoc) : M unit :=
  fun st =>
    if String.eqb (user_name u) "" || String.eqb (user_email u) ""
       || String.eqb (user_password u) ""
    then (st, Throw "ValidationError")
    else if existsb (fun x => String.eqb (user_email x) (user_email u)) (users st)
    then (st, Throw "E11000 duplicate key")
    else (bumpId (withUsers (users st ++ [u]) st), Ok tt).

Section Signup.

(** [bcrypt.hash(password, 10)] as it comes out for this request. *)
Variable bcrypt_hash : string -> string.
Variable toLowerCase : string -> string.

(** POST /api/auth/signup.  The route lowers the email and the schema
    ([lowercase: true]) lowers it once more when the document is built. *)
Definition signup (now : Date) (name email password : string)
  : Store -> Store * Response SignupBody :=
  tryCatch (
    existingUser <- User_findOneByEmail (toLowerCase email) ;;
    if isSome existingUser then ret (Error 400 "Email already exists")
    else
      let hashedPassword := bcrypt_hash password in
      id <- gets nextId ;;
      let user :=
        mkUser id name (toLowerCase (toLowerCase email)) hashedPassword 0 0 now now in
      User_create user ;;;
      ret (Json 201 (mkSignupBody (user_id user) (user_id user) (user_name user)
                                  (user_email user) 0 0))).

End Signup.

Record MeBody := mkMeBody {
  me_id : ObjectId;
  me_name : string;
  me_email : string;
  me_points : Z;
  me_streak : Z;
  me_tasksCompleted : nat;
  me_totalTasks : nat
}.

Record StatsBody := mkStatsBody {
  stats_points : Z;
  stats_streak : Z;
  stats_tasksCompleted : nat;
  stats_totalTasks : nat
}.

(** [{ userId }] on tasks. *)
Definition ownTask (userId : ObjectId) (t : TaskDoc) : bool :=
  N.eqb (task_userId t) userId.

(** GET /api/auth/me (this route has no try/catch of its own). *)
Definition getMe (auth : Authorization) : Store -> Store * Response MeBody :=
  authMiddleware auth (fun req_user st =>
    let tasksCompleted := countDocuments (completedOf (user_id req_user)) (tasks st) in
    let totalTasks := countDocuments (ownTask (user_id req_user)) (tasks st) in
    (st, Json 200 (mkMeBody (user_id req_user) (user_name req_user) (user_email req_user)
                            (user_points req_user) (user_streak req_user)
                            tasksCompleted totalTasks))).

(** GET /api/stats *)
Definition getStats (auth : Authorization) : Store -> Store * Response StatsBody :=
  authMiddleware auth (fun req_user =>
    tryCatch (
      tasksCompleted <- Task_countDocuments (completedOf (user_id req_user)) ;;
      totalTasks <- Task_countDocuments (ownTask (user_id req_user)) ;;
      ret (Json 200 (mkStatsBody (user_points req_user) (user_streak req_user)
                                 tasksCompleted totalTasks)))).

(** POST /api/sections/:sectionId/subsections *)
Definition createSubsection (now : Date) (auth : Authorization)
    (sectionId : ObjectId) (title : option string)
  : Store -> Store * Response SubsectionView :=
  authMiddleware auth (fun req_user =>
    tryCatch (
      count <- gets (fun st =>
        countDocuments (fun s => N.eqb (sub_sectionId s) sectionId) (subsections st)) ;;
      match title with
      | None => throw "ValidationError"
      | Some title =>
          if String.eqb title "" then throw "ValidationError"
          else
            id <- gets nextId ;;
            let subsection :=
              mkSubsection id sectionId (user_id req_user) title (Z.of_nat count) now in
            modify (fun st =>
              bumpId (withSubsections (subsections st ++ [subsection]) st)) ;;;
            ret (Json 201 (mkSubsectionView subsection [] 0%float))
      end)).

(** The body of POST /api/tasks; [None] is a field the request leaves out. *)
Record TaskInput := mkTaskInput {
  in_sectionId : option ObjectId;
  in_subsectionId : option ObjectId;
  in_title : option string;
  in_type : option TaskType;
  in_targetDate : option Date;
  in_deadline : option Date;
  in_priority : option Priority;
  in_tags : option (list string)
}.

Definition orElse {A} (o : option A) (d : A) : A :=
  match o with Some v => v | None => d end.

(** [targetDate || new Date()], for a target date that the body carries as
    a number of milliseconds: a missing field and the number 0 are both
    falsy and give the time of creation. *)
Definition givenOrNow (given : option Date) (now : Date) : Date :=
  match given with
  | Some d => if d =? 0 then now else d
  | None => now
  end.

(** POST /api/tasks.  [sectionId], [title] and [type] are required by the
    schema; the dates are chosen by type before validation runs. *)
Definition createTask (now : Date) (auth : Authorization) (body : TaskInput)
  : Store -> Store * Response TaskDoc :=
  authMiddleware auth (fun req_user =>
    tryCatch (
      let targetDate :=
        match in_type body with
        | Some Daily => Some (givenOrNow (in_targetDate body) now)
        | _ => None
        end in
      let deadline :=
        match in_type body with
        | Some Deadline => in_deadline body
        | _ => None
        end in
      match in_sectionId body, in_title body, in_type body with
      | Some sectionId, Some title, Some type =>
          if String.eqb title "" then throw "ValidationError"
          else
            id <- gets nextId ;;
            let task :=
              mkTask id (user_id req_user) sectionId (in_subsectionId body) title type
                     targetDate deadline (orElse (in_priority body) Medium)
                     (orElse (in_tags body) []) Pending None now in
            modify (fun st => bumpId (withTasks (tasks st ++ [task]) st)) ;;;
            ret (Json 201 task)
      | _, _, _ => throw "ValidationError"
      end)).





(** An element of GET /api/achievements: [{ ...a, check: undefined,
    unlocked, unlockedAt }]. *)
Record AchievementInfo := mkAchievementInfo {
  info_id : string;
  info_title : string;
  info_desc : string;
  info_icon : string;
  info_points : Z;
  info_unlocked : bool;
  info_unlockedAt : option Date
}.

(** GET /api/achievements *)
Definition getAchievements (auth : Authorization)
  : Store -> Store * Response (list AchievementInfo) :=
  authMiddleware auth (fun req_user =>
    tryCatch (
      unlocked <- gets (fun st =>
        filter (fun a => N.eqb (unlock_userId a) (user_id req_user)) (achievements st)) ;;
      let unlockedIds := map unlock_achievementId unlocked in
      ret (Json 200
        (map (fun a =>
                mkAchievementInfo (ach_id a) (ach_title a) (ach_desc a) (ach_icon a)
                  (ach_points a)
                  (existsb (fun i => String.eqb i (ach_id a)) unlockedIds)
                  (option_map unlock_unlockedAt
                     (find (fun u => String.eqb (unlock_achievementId u) (ach_id a))
                           unlocked)))
             ACHIEVEMENTS)))).

Record DatedTask := mkDatedTask {
  dated_task : TaskDoc;
  dated_sectionName : option string;
  dated_sectionIcon : option string
}.

(** The [stats] object of the calendar route: day of month to [{ t, c }].
    A JavaScript object lists integer keys in ascending order. *)
Definition DayStats := list (Z * (nat * nat)).

(** [if (!stats[day]) stats[day] = { t: 0, c: 0 }; stats[day].t++;
    if (completed) stats[day].c++] *)
Fixpoint bumpDay (day : Z) (completed : bool) (stats : DayStats) : DayStats :=
  match stats with
  | [] => [(day, (1%nat, if completed then 1%nat else 0%nat))]
  | (d, (t, c)) :: r =>
      if d =? day then (d, (S t, if completed then S c else c)) :: r
      else if day <? d
           then (day, (1%nat, if completed then 1%nat else 0%nat)) :: stats
           else (d, (t, c)) :: bumpDay day completed r
  end.

Section HostCalendar.

(** [new Date(t).setHours(0,0,0,0)] and, applied to the result,
    [setHours(23,59,59,999)]. *)
Variable setHoursZero : Date -> Date.
Variable setHoursEnd : Date -> Date.
(** [new Date(year, month - 1, 1)] and [new Date(year, month, 0, 23, 59, 59)]. *)
Variable monthStart : Z -> Z -> Date.
Variable monthEnd : Z -> Z -> Date.
(** [Date.prototype.getDate] *)
Variable getDate : Date -> Z.

Definition datedQuery (userId : ObjectId) (start end_ : Date) (t : TaskDoc) : bool :=
  N.eqb (task_userId t) userId
  && (inRange start end_ (task_targetDate t) || inRange start end_ (task_deadline t)).

(** [.populate('sectionId', 'title icon')] and the two derived fields. *)
Definition populateSection (st : Store) (t : TaskDoc) : DatedTask :=
  let section := find (fun s => N.eqb (sec_id s) (task_sectionId t)) (sections st) in
  mkDatedTask t (option_map sec_title section) (option_map sec_icon section).

(** GET /api/tasks/date/:date *)
Definition tasksByDate (date : Date) (auth : Authorization)
  : Store -> Store * Response (list DatedTask) :=
  authMiddleware auth (fun req_user =>
    tryCatch (
      let start := setHoursZero date in
      let end_ := setHoursEnd start in
      result <- gets (fun st =>
        map (populateSection st)
            (filter (datedQuery (user_id req_user) start end_) (tasks st))) ;;
      ret (Json 200 result))).

(** The [tasks.forEach] of the calendar route; a task without either date
    never passes the query. *)
Definition calendarStep (stats : DayStats) (task : TaskDoc) : DayStats :=
  match anchorDate task with
  | Some date => bumpDay (getDate date) (isCompleted task) stats
  | None => stats
  end.

(** GET /api/tasks/calendar/:year/:month *)
Definition calendarStats (year month : Z) (auth : Authorization)
  : Store -> Store * Response DayStats :=
  authMiddleware auth (fun req_user =>
    tryCatch (
      let start := monthStart year month in
      let end_ := monthEnd year month in
      tasks <- gets (fun st =>
        filter (datedQuery (user_id req_user) start end_) (tasks st)) ;;
      ret (Json 200 (fold_left calendarStep tasks [])))).

End HostCalendar.

(** The end of the UTC day that starts at [t]. *)
Definition utcEndOfDay (t : Date) : Date := t / msPerDay * msPerDay + (msPerDay - 1).

(** * Vocabulary of the statements *)

Definition findUser (userId : ObjectId) (st : Store) : option UserDoc :=
  find (fun u => N.eqb (user_id u) userId) (users st).

Definition findTask (id userId : ObjectId) (st : Store) : option TaskDoc :=
  find (fun t => N.eqb (task_id t) id && N.eqb (task_userId t) userId) (tasks st).

(** An unlock record exists for (user, id). *)
Definition isUnlocked (userId : ObjectId) (id : string) (st : Store) : bool :=
  isSome (find (fun a => N.eqb (unlock_userId a) userId
                         && String.eqb (unlock_achievementId a) id)
               (achievements st)).

Definition lockedIn (userId : ObjectId) (st : Store) (id : string) : bool :=
  negb (isUnlocked userId id st).

(** What the [check] closures read of the store for one user. *)
Record View := mkView {
  v_completed : nat;
  v_early : nat;
  v_streak : Z;
  v_points : Z
}.

Definition viewOf (userId : ObjectId) (u : UserDoc) (st : Store) : View :=
  mkView (countDocuments (completedOf userId) (tasks st))
         (countDocuments (earlyOf userId) (tasks st))
         (user_streak u) (user_points u).

Definition plusPoints (n : Z) (v : View) : View :=
  mkView (v_completed v) (v_early v) (v_streak v) (v_points v + n).

(** The entry [a] answers [p] of the user's view and writes nothing. *)
Definition checksAs (a : AchievementDef) (p : View -> bool) : Prop :=
  forall userId st u,
    findUser userId st = Some u ->
    ach_check a userId st = (st, Ok (p (viewOf userId u st))).

(** One pass over a catalog on views: the entries it unlocks, in order. *)
Fixpoint passPure (cat : list (AchievementDef * (View -> bool)))
    (locked : string -> bool) (v : View) : list AchievementDef :=
  match cat with
  | [] => []
  | (a, p) :: rest =>
      if locked (ach_id a) && p v
      then a :: passPure rest locked (plusPoints (ach_points a) v)
      else passPure rest locked v
  end.

(** The store after one unlock: one record appended, one increment. *)
Definition grant (now : Date) (userId : ObjectId) (st : Store) (a : AchievementDef)
  : Store :=
  match findUser userId st with
  | Some u =>
      mkStore (replaceFirst (fun x => N.eqb (user_id x) userId)
                            (addPoints (ach_points a) u) (users st))
              (sections st) (subsections st) (tasks st)
              (achievements st ++ [mkAchievement (nextId st) userId (ach_id a) now])
              (N.succ (nextId st))
  | None => st
  end.

Definition grantAll (now : Date) (userId : ObjectId) (new : list AchievementDef)
    (st : Store) : Store :=
  fold_left (grant now userId) new st.

Definition sumPoints (l : list AchievementDef) : Z :=
  fold_right (fun a s => ach_points a + s) 0 l.

Definition stamp (now : Date) (l : list AchievementDef) : list Unlocked :=
  map (fun a => mkUnlocked a now) l.

Definition unlockKey (r : AchievementDoc) : ObjectId * string :=
  (unlock_userId r, unlock_achievementId r).

Definition hasId (id : string) (l : list AchievementDef) : bool :=
  existsb (fun a => String.eqb (ach_id a) id) l.

(** The table paired with what each closure computes. *)
Definition ACHIEVEMENTS_views : list (AchievementDef * (View -> bool)) :=
  [ (first_task, fun v => (1 <=? v_completed v)%nat);
    (streak_7, fun v => 7 <=? v_streak v);
    (tasks_100, fun v => (100 <=? v_completed v)%nat);
    (early_10, fun v => (10 <=? v_early v)%nat);
    (points_1000, fun v => 1000 <=? v_points v);
    (tasks_10, fun v => (10 <=? v_completed v)%nat) ].

Definition plusIf (b : bool) (n x : Z) : Z := if b then x + n else x.
Definition consIf {A} (b : bool) (a : A) (l : list A) : list A :=
  if b then a :: l else l.

(** The entries of the table selected by six flags, in table order. *)
Definition pick (b1 b2 b3 b4 b5 b6 : bool) : list AchievementDef :=
  consIf b1 first_task (consIf b2 streak_7 (consIf b3 tasks_100
    (consIf b4 early_10 (consIf b5 points_1000 (consIf b6 tasks_10 []))))).

(** The entries one pass unlocks, written out in the order of the table:
    an entry is taken when it has no unlock record and its threshold is
    met; the points seen by [points_1000] include the rewards of the
    entries taken before it. *)
Definition unlockedBy (locked : string -> bool) (v : View) : list AchievementDef :=
  let b1 := locked "first_task" && (1 <=? v_completed v)%nat in
  let b2 := locked "streak_7" && (7 <=? v_streak v) in
  let b3 := locked "tasks_100" && (100 <=? v_completed v)%nat in
  let b4 := locked "early_10" && (10 <=? v_early v)%nat in
  let seen := plusIf b4 150 (plusIf b3 500 (plusIf b2 200 (plusIf b1 50 (v_points v)))) in
  let b5 := locked "points_1000" && (1000 <=? seen) in
  let b6 := locked "tasks_10" && (10 <=? v_completed v)%nat in
  pick b1 b2 b3 b4 b5 b6.


Definition newIds (r : Store * Result (list Unlocked)) : list string :=
  match snd r with
  | Ok l => map (fun x => ach_id (unl_ach x)) l
  | Throw _ => []
  end.

(** The percentage as the specification words it: [100 * completed / count]
    rounded half up, and 0 for an empty list. *)
Definition roundHalfUp (q : Q) : Z := Qfloor (q + (1 # 2))%Q.

Definition specPercent (completed count : nat) : Z :=
  if (count =? 0)%nat then 0
  else roundHalfUp (inject_Z (100 * Z.of_nat completed) / inject_Z (Z.of_nat count))%Q.

(** Section operations, for reachability. *)
Inductive SectionOp :=
| OpCreate (now : Date) (userId : ObjectId) (title icon : option string)
| OpDelete (userId : ObjectId) (id : ObjectId).

Definition runOp (st : Store) (op : SectionOp) : Store :=
  match op with
  | OpCreate now userId title icon =>
      fst (createSection now (Bearer userId) title icon st)
  | OpDelete userId id => fst (deleteSection (Bearer userId) id st)
  end.

Definition runOps (ops : list SectionOp) (st : Store) : Store :=
  fold_left runOp ops st.

Definition isCreate (op : SectionOp) : Prop :=
  match op with OpCreate _ _ _ _ => True | OpDelete _ _ => False end.

Definition ordersOf (userId : ObjectId) (st : Store) : list Z :=
  map sec_order (filter (ownSection userId) (sections st)).

(** A store with users and nothing else. *)
Definition onlyUsers (us : list UserDoc) (next : ObjectId) : Store :=
  mkStore us [] [] [] [] next.

(** The store of a completion request after [task.save()] and
    [req.user.save()], before the achievements are checked. *)
Definition awardedStore (userId : ObjectId) (u : UserDoc) (t : TaskDoc) (st : Store)
  : Store :=
  mkStore (replaceFirst (fun x => N.eqb (user_id x) userId) u (users st))
          (sections st) (subsections st)
          (replaceFirst (fun x => N.eqb (task_id x) (task_id t)) t (tasks st))
          (achievements st) (nextId st).

Definition basePoints (p : Priority) : Z :=
  match p with Low => 50 | Medium => 75 | High => 100 end.

(** The bonus condition: a deadline task, with a deadline, completed
    strictly before it. *)
Definition beatsDeadline (now : Date) (t : TaskDoc) : Prop :=
  task_type t = Deadline /\ exists d, task_deadline t = Some d /\ now < d.

(** ** Example data *)

Definition hour : Z := 1000 * 60 * 60.

(** New York in 2024: clocks go forward on 10 March at 07:00 UTC (02:00
    EST) and back on 3 November at 06:00 UTC (02:00 EDT). *)
Definition est : Z := - 5 * hour.
Definition edt : Z := - 4 * hour.
Definition springForward : Date := 19792 * msPerDay + 7 * hour.
Definition fallBack : Date := 20030 * msPerDay + 6 * hour.

(** Erin, streak 6, last active at noon local time on 10 March, logs in at
    nine in the morning of 11 March; and the same for 3 and 4 November. *)
Definition marchNoon : Date := 19792 * msPerDay + 16 * hour.
Definition marchMorning : Date := 19793 * msPerDay + 13 * hour.
Definition novemberNoon : Date := 20030 * msPerDay + 17 * hour.
Definition novemberMorning : Date := 20031 * msPerDay + 14 * hour.
Definition erin (lastActive : Date) : UserDoc :=
  mkUser 5 "Erin" "erin@example.com" "hash-e" 0 6 lastActive 0.
Definition erinStore (lastActive : Date) : Store :=
  mkStore [erin lastActive] [] [] [] [] 100.

Definition alice : UserDoc :=
  mkUser 1 "Alice" "alice@example.com" "hash-a" 950 6 0 0.
Definition bob : UserDoc :=
  mkUser 2 "Bob" "bob@example.com" "hash-b" 0 0 0 0.

(** A pending high-priority deadline task of Alice, due at time 5000. *)
Definition essay : TaskDoc :=
  mkTask 20 1 10 None "Essay" Deadline None (Some 5000) High [] Pending None 0.

Definition aliceStore : Store :=
  mkStore [alice; bob] [mkSection 10 1 "Study" "S" 0 0] [] [essay] [] 100.

(** The same store once the essay has been completed at time 4000. *)
Definition essayDone : TaskDoc := markCompleted 4000 essay.
Definition aliceDoneStore : Store :=
  mkStore [alice; bob] [mkSection 10 1 "Study" "S" 0 0] [] [essayDone] [] 100.

Definition noon : Clock := mkClock 4000 4000 4000.

(** A request that reaches the server just before the essay is due: the
    clock reads 4999 when [completedAt] is set and 5000 afterwards. *)
Definition lastInstant : Clock := mkClock 4999 5000 5000.

(** Carol has 900 points, ten completed tasks and the [first_task]
    unlock; [tasks_10] is still to be unlocked. *)
Definition carol : UserDoc :=
  mkUser 3 "Carol" "carol@example.com" "hash-c" 900 2 0 0.

Definition tenDone : list TaskDoc :=
  map (fun i => mkTask (N.of_nat i) 3 10 None "Exercise" Daily (Some 0) None Low []
                       Completed (Some 0) 0)
      (seq 30 10).

Definition carolStore : Store :=
  mkStore [carol] [] [] tenDone [mkAchievement 50 3 "first_task" 0] 100.

(** Bob owns section 40 with subsection 41, a task 42 in the subsection
    and a direct task 43; Alice owns nothing there. *)
Definition bobSection : SectionDoc := mkSection 40 2 "Work" "W" 0 0.
Definition bobSubsection : SubsectionDoc := mkSubsection 41 40 2 "Reports" 0 0.
Definition bobTask42 : TaskDoc :=
  mkTask 42 2 40 (Some 41%N) "Write report" Daily (Some 0) None Medium [] Pending None 0.
Definition bobTask43 : TaskDoc :=
  mkTask 43 2 40 None "Send report" Daily (Some 0) None Medium [] Pending None 0.
Definition bobStore : Store :=
  mkStore [alice; bob] [bobSection] [bobSubsection] [bobTask42; bobTask43] [] 100.

Definition plainTask (id : nat) (status : Status) : TaskDoc :=
  mkTask (N.of_nat id) 1 10 None "Item" Daily (Some 0) None Medium [] status
         (match status with Completed => Some 0 | Pending => None end) 0.

(** Forty tasks, the first 23 of them completed. *)
Definition fortyTasks : list TaskDoc :=
  map (fun i => plainTask i Completed) (seq 0 23)
  ++ map (fun i => plainTask i Pending) (seq 23 17).

(** The aggregate example of the specification: section 10 with two
    direct tasks, one completed, and one subsection with two completed
    tasks. *)
Definition inSub (id : N) (sub : ObjectId) (status : Status) : TaskDoc :=
  mkTask id 1 10 (Some sub) "Item" Daily (Some 0) None Medium [] status None 0.
Definition unionStore : Store :=
  mkStore [alice] [mkSection 10 1 "Study" "S" 0 0] [mkSubsection 11 10 1 "Maths" 0 0]
          [plainTask 70 Completed; plainTask 71 Pending;
           inSub 72 11 Completed; inSub 73 11 Completed] [] 100.

(** Ten o'clock on day 10 (UTC), and a task of Alice due at six in the
    evening of the same day. *)
Definition tenOClock : Date := 10 * msPerDay + 10 * hour.
Definition dueTonight : TaskDoc :=
  mkTask 60 1 10 None "Review" Daily (Some (10 * msPerDay + 18 * hour)) None Medium []
         Pending None 0.
Definition weekStore : Store :=
  mkStore [alice] [mkSection 10 1 "Study" "S" 0 0] [] [dueTonight] [] 100.

(** Two sections created, the first deleted, a third created. *)
Definition createDeleteCreate : list SectionOp :=
  [OpCreate 0 1 (Some "A") None; OpCreate 0 1 (Some "B") None;
   OpDelete 1 0; OpCreate 0 1 (Some "C") None].

Definition notOwnedBy (userId : ObjectId) (t : TaskDoc) : bool :=
  negb (N.eqb (task_userId t) userId).

(** Every user's orders are 0, 1, ..., count - 1, in insertion order. *)
Definition contiguous (st : Store) : Prop :=
  forall userId,
    ordersOf userId st
    = map Z.of_nat (seq 0 (countDocuments (ownSection userId) (sections st))).


(** A POST /api/tasks body with the required fields only. *)
Definition quickNote : TaskInput :=
  mkTaskInput (Some 10%N) None (Some "Note") (Some Daily) None None None None.

(** The same body with the target date given as the number 0. *)
Definition epochNote : TaskInput :=
  mkTaskInput (Some 10%N) None (Some "Note") (Some Daily) (Some 0) None None None.

(** A stand-in for bcrypt in the examples: the hash keeps the password
    behind a prefix. *)
Definition toyHash (password : string) : string := "hash:" ++ password.
Definition toyCompare (password hash : string) : bool :=
  String.eqb hash (toyHash password).

(** [Some x] on the UTC day of [date]. *)
Definition onUtcDay (date : Date) (o : option Date) : bool :=
  match o with
  | Some x => utcDay x =? utcDay date
  | None => false
  end.

(** Subsection creations, for reachability. *)
Record SubCreate := mkSubCreate {
  sc_now : Date;
  sc_userId : ObjectId;
  sc_sectionId : ObjectId;
  sc_title : option string
}.

Definition runSubCreate (st : Store) (op : SubCreate) : Store :=
  fst (createSubsection (sc_now op) (Bearer (sc_userId op)) (sc_sectionId op)
                        (sc_title op) st).

Definition runSubCreates (ops : list SubCreate) (st : Store) : Store :=
  fold_left runSubCreate ops st.

Definition inSection (sectionId : ObjectId) (s : SubsectionDoc) : bool :=
  N.eqb (sub_sectionId s) sectionId.

Definition subOrdersOf (sectionId : ObjectId) (st : Store) : list Z :=
  map sub_order (filter (inSection sectionId) (subsections st)).

Definition subContiguous (st : Store) : Prop :=
  forall sectionId,
    subOrdersOf sectionId st
    = map Z.of_nat (seq 0 (countDocuments (inSection sectionId) (subsections st))).

Definition totalOf (stats : DayStats) : nat :=
  fold_right (fun e s => (fst (snd e) + s)%nat) 0%nat stats.
Definition completedIn (stats : DayStats) : nat :=
  fold_right (fun e s => (snd (snd e) + s)%nat) 0%nat stats.

(** The calendar functions of a UTC host, for dates within January 1970
    (the first 31 days after the epoch). *)
Definition january1970Start (year month : Z) : Date := 0.
Definition january1970End (year month : Z) : Date := 31 * msPerDay - 1000.
Definition january1970Date (t : Date) : Z := utcDay t + 1.

(** A stats entry is well formed: at least one task, and no more
    completed tasks than tasks. *)
Definition entryOk (e : Z * (nat * nat)) : Prop :=
  (1 <= fst (snd e))%nat /\ (snd (snd e) <= fst (snd e))%nat.

(** * Collections *)

(** Runs the monadic body of a route once its queries have been rewritten. *)
Ltac run_route := unfold tryCatch, bind, gets, modify, ret.


Lemma find_replaceFirst {A} (p : A -> bool) (d : A) (l : list A) :
  p d = true ->
  find p (replaceFirst p d l) = match find p l with Some _ => Some d | None => None end.
Proof.
  intros Hd. induction l as [|x r IH]; simpl; [reflexivity|].
  destruct (p x) eqn:E; simpl.
  - now rewrite Hd.
  - now rewrite E.
Qed.

Lemma find_app_last {A} (p : A -> bool) (l : list A) (x : A) :
  find p (l ++ [x]) =
  match find p l with Some y => Some y | None => if p x then Some x else None end.
Proof.
  induction l as [|y r IH]; simpl; [reflexivity|].
  destruct (p y); [reflexivity | exact IH].
Qed.

Lemma find_In_not_None {A} (p : A -> bool) (l : list A) (x : A) :
  In x l -> p x = true -> find p l <> None.
Proof.
  intros Hin Hp Hnone.
  pose proof (find_none p l Hnone x Hin) as E. congruence.
Qed.

Lemma findUser_id userId st u : findUser userId st = Some u -> user_id u = userId.
Proof.
  unfold findUser. intros H. apply find_some in H as [_ H].
  now apply N.eqb_eq in H.
Qed.

Lemma addPoints_0 u : addPoints 0 u = u.
Proof. destruct u; unfold addPoints; simpl. now rewrite Z.add_0_r. Qed.

Lemma addPoints_addPoints a b u : addPoints b (addPoints a u) = addPoints (a + b) u.
Proof. destruct u; unfold addPoints; simpl. now rewrite Z.add_assoc. Qed.

(** * One unlock *)

Lemma grant_findUser now userId st a u :
  findUser userId st = Some u ->
  findUser userId (grant now userId st a) = Some (addPoints (ach_points a) u).
Proof.
  intros Hu. unfold grant. rewrite Hu. unfold findUser in *. simpl.
  rewrite find_replaceFirst.
  - now rewrite Hu.
  - simpl. apply N.eqb_eq. now apply (findUser_id userId st).
Qed.

Lemma grant_tasks now userId st a : tasks (grant now userId st a) = tasks st.
Proof. unfold grant. now destruct (findUser userId st). Qed.

Lemma grant_sections now userId st a : sections (grant now userId st a) = sections st.
Proof. unfold grant. now destruct (findUser userId st). Qed.

Lemma grant_subsections now userId st a :
  subsections (grant now userId st a) = subsections st.
Proof. unfold grant. now destruct (findUser userId st). Qed.

Lemma grant_isUnlocked now userId st a u id :
  findUser userId st = Some u ->
  isUnlocked userId id (grant now userId st a)
  = isUnlocked userId id st || String.eqb (ach_id a) id.
Proof.
  intros Hu. unfold grant. rewrite Hu. unfold isUnlocked. simpl.
  rewrite find_app_last. simpl. rewrite N.eqb_refl. simpl.
  destruct (find _ (achievements st)); simpl; [reflexivity|].
  now destruct (String.eqb (ach_id a) id).
Qed.

Lemma grant_keys now userId st a u :
  findUser userId st = Some u ->
  map unlockKey (achievements (grant now userId st a))
  = map unlockKey (achievements st) ++ [(userId, ach_id a)].
Proof.
  intros Hu. unfold grant. rewrite Hu. simpl. now rewrite map_app.
Qed.

(** * A sequence of unlocks *)

Lemma grantAll_findUser now userId new : forall st u,
  findUser userId st = Some u ->
  findUser userId (grantAll now userId new st) = Some (addPoints (sumPoints new) u).
Proof.
  induction new as [|a r IH]; intros st u Hu; simpl.
  - now rewrite addPoints_0.
  - unfold grantAll in *. simpl.
    rewrite (IH _ _ (grant_findUser now userId st a u Hu)).
    now rewrite addPoints_addPoints.
Qed.

Lemma grantAll_tasks now userId new : forall st,
  tasks (grantAll now userId new st) = tasks st.
Proof.
  induction new as [|a r IH]; intros st; [reflexivity|].
  unfold grantAll in *. simpl. rewrite IH. apply grant_tasks.
Qed.

Lemma grantAll_sections now userId new : forall st,
  sections (grantAll now userId new st) = sections st.
Proof.
  induction new as [|a r IH]; intros st; [reflexivity|].
  unfold grantAll in *. simpl. rewrite IH. apply grant_sections.
Qed.

Lemma grantAll_subsections now userId new : forall st,
  subsections (grantAll now userId new st) = subsections st.
Proof.
  induction new as [|a r IH]; intros st; [reflexivity|].
  unfold grantAll in *. simpl. rewrite IH. apply grant_subsections.
Qed.

Lemma grantAll_isUnlocked now userId new id : forall st u,
  findUser userId st = Some u ->
  isUnlocked userId id (grantAll now userId new st)
  = isUnlocked userId id st || hasId id new.
Proof.
  induction new as [|a r IH]; intros st u Hu; simpl.
  - now rewrite orb_false_r.
  - unfold grantAll in *. simpl.
    rewrite (IH _ _ (grant_findUser now userId st a u Hu)).
    rewrite (grant_isUnlocked now userId st a u id Hu).
    now rewrite orb_assoc.
Qed.

Lemma grantAll_keys now userId new : forall st u,
  findUser userId st = Some u ->
  map unlockKey (achievements (grantAll now userId new st))
  = map unlockKey (achievements st) ++ map (fun a => (userId, ach_id a)) new.
Proof.
  induction new as [|a r IH]; intros st u Hu; simpl.
  - now rewrite app_nil_r.
  - unfold grantAll in *. simpl.
    rewrite (IH _ _ (grant_findUser now userId st a u Hu)).
    rewrite (grant_keys now userId st a u Hu).
    now rewrite <- app_assoc.
Qed.

Lemma grantAll_view now userId new st u :
  viewOf userId (addPoints (sumPoints new) u) (grantAll now userId new st)
  = plusPoints (sumPoints new) (viewOf userId u st).
Proof.
  unfold viewOf, plusPoints. simpl. now rewrite grantAll_tasks.
Qed.

(** * The loop of [checkAchievements] against the pass on views *)

Lemma passPure_ext cat : forall locked locked' v,
  (forall c, In c cat -> locked (ach_id (fst c)) = locked' (ach_id (fst c))) ->
  passPure cat locked v = passPure cat locked' v.
Proof.
  induction cat as [|[a p] rest IH]; intros locked locked' v H; simpl; [reflexivity|].
  pose proof (H (a, p) (or_introl eq_refl)) as E. simpl in E. rewrite <- E.
  destruct (locked (ach_id a) && p v).
  - f_equal. apply IH. intros c Hc. apply H. now right.
  - apply IH. intros c Hc. apply H. now right.
Qed.

Lemma checkLoop_step_unlock now userId a rest acc st u :
  findUser userId st = Some u ->
  isUnlocked userId (ach_id a) st = false ->
  ach_check a userId st = (st, Ok true) ->
  checkLoop now userId (a :: rest) acc st
  = checkLoop now userId rest (acc ++ [mkUnlocked a now]) (grant now userId st a).
Proof.
  intros Hu Hl Hc.
  pose proof (findUser_id _ _ _ Hu) as Hid.
  unfold grant. rewrite Hu.
  unfold isUnlocked in Hl. unfold findUser in Hu.
  cbn [checkLoop]. unfold bind at 1. unfold Achievement_findOne at 1, gets at 1.
  destruct (find _ (achievements st)); [discriminate|]. cbn [isSome].
  unfold bind at 1. rewrite Hc.
  unfold bind at 1. unfold Achievement_create, modify.
  unfold bind at 1. unfold User_findById, gets. cbn [users bumpId withAchievements].
  rewrite Hu. unfold bind at 1. unfold User_save, modify.
  cbn [user_id addPoints]. rewrite Hid. reflexivity.
Qed.

Lemma checkLoop_step_skip now userId a rest acc st :
  (isUnlocked userId (ach_id a) st = true \/ ach_check a userId st = (st, Ok false)) ->
  checkLoop now userId (a :: rest) acc st = checkLoop now userId rest acc st.
Proof.
  intros H. cbn [checkLoop]. unfold bind at 1.
  unfold Achievement_findOne at 1, gets at 1. unfold isUnlocked in H.
  destruct (find _ (achievements st)); cbn [isSome] in *.
  - reflexivity.
  - destruct H as [H|H]; [discriminate|]. unfold bind at 1. now rewrite H.
Qed.

Lemma checkLoop_passPure now userId cat :
  NoDup (map (fun c => ach_id (fst c)) cat) ->
  Forall (fun c => checksAs (fst c) (snd c)) cat ->
  forall st u acc,
    findUser userId st = Some u ->
    checkLoop now userId (map fst cat) acc st
    = (grantAll now userId (passPure cat (lockedIn userId st) (viewOf userId u st)) st,
       Ok (acc ++ stamp now (passPure cat (lockedIn userId st) (viewOf userId u st)))).
Proof.
  induction cat as [|[a p] rest IH]; intros ND HF st u acc Hu.
  - simpl. unfold ret. now rewrite app_nil_r.
  - inversion ND as [|x l Hnotin ND' E]; subst.
    inversion HF as [|x l Ha HF' E]; subst. simpl in Ha.
    cbn [map fst passPure].
    destruct (isUnlocked userId (ach_id a) st) eqn:Hl.
    + assert (HL : lockedIn userId st (ach_id a) = false)
        by (unfold lockedIn; now rewrite Hl).
      rewrite HL. cbn [andb].
      rewrite checkLoop_step_skip by now left.
      now apply IH.
    + assert (HL : lockedIn userId st (ach_id a) = true)
        by (unfold lockedIn; now rewrite Hl).
      rewrite HL. cbn [andb].
      specialize (Ha userId st u Hu).
      destruct (p (viewOf userId u st)) eqn:Hp.
      * rewrite (checkLoop_step_unlock now userId a (map fst rest) acc st u Hu Hl Ha).
        pose proof (grant_findUser now userId st a u Hu) as Hu'.
        rewrite (IH ND' HF' _ _ _ Hu').
        assert (Hv : viewOf userId (addPoints (ach_points a) u) (grant now userId st a)
                     = plusPoints (ach_points a) (viewOf userId u st)).
        { unfold viewOf, plusPoints. simpl. now rewrite grant_tasks. }
        rewrite Hv.
        assert (Hx : passPure rest (lockedIn userId (grant now userId st a))
                              (plusPoints (ach_points a) (viewOf userId u st))
                     = passPure rest (lockedIn userId st)
                              (plusPoints (ach_points a) (viewOf userId u st))).
        { apply passPure_ext. intros c Hc. unfold lockedIn.
          rewrite (grant_isUnlocked now userId st a u _ Hu).
          destruct (String.eqb (ach_id a) (ach_id (fst c))) eqn:E.
          - apply String.eqb_eq in E. exfalso. apply Hnotin. rewrite E.
            now apply (in_map (fun c => ach_id (fst c))).
          - now rewrite orb_false_r. }
        rewrite Hx. unfold grantAll, stamp. simpl. now rewrite <- app_assoc.
      * rewrite checkLoop_step_skip by now right.
        now apply IH.
Qed.

(** * What the six closures compute *)

Lemma checkCompleted_checksAs n id title desc icon pts :
  checksAs (mkAch id title desc icon pts (checkCompleted n))
           (fun v => (n <=? v_completed v)%nat).
Proof. intros userId st u Hu. reflexivity. Qed.

Lemma checkEarly_checksAs n id title desc icon pts :
  checksAs (mkAch id title desc icon pts (checkEarly n))
           (fun v => (n <=? v_early v)%nat).
Proof. intros userId st u Hu. reflexivity. Qed.

Lemma checkUser_streak_checksAs n id title desc icon pts :
  checksAs (mkAch id title desc icon pts (checkUser (fun u => n <=? user_streak u)))
           (fun v => n <=? v_streak v).
Proof.
  intros userId st u Hu. unfold findUser in Hu. simpl.
  unfold checkUser, bind, User_findById, gets. now rewrite Hu.
Qed.

Lemma checkUser_points_checksAs n id title desc icon pts :
  checksAs (mkAch id title desc icon pts (checkUser (fun u => n <=? user_points u)))
           (fun v => n <=? v_points v).
Proof.
  intros userId st u Hu. unfold findUser in Hu. simpl.
  unfold checkUser, bind, User_findById, gets. now rewrite Hu.
Qed.

Lemma ACHIEVEMENTS_checksAs :
  Forall (fun c => checksAs (fst c) (snd c)) ACHIEVEMENTS_views.
Proof.
  unfold ACHIEVEMENTS_views.
  repeat (apply Forall_cons
          || apply checkCompleted_checksAs || apply checkEarly_checksAs
          || apply checkUser_streak_checksAs || apply checkUser_points_checksAs).
  apply Forall_nil.
Qed.

Lemma ACHIEVEMENTS_ids_NoDup :
  NoDup (map (fun c : AchievementDef * (View -> bool) => ach_id (fst c))
             ACHIEVEMENTS_views).
Proof.
  simpl. repeat (apply NoDup_cons; [simpl; intuition discriminate|]).
  apply NoDup_nil.
Qed.

Lemma passPure_ACHIEVEMENTS locked v :
  passPure ACHIEVEMENTS_views locked v = unlockedBy locked v.
Proof.
  destruct v as [c e s p].
  unfold unlockedBy, pick, ACHIEVEMENTS_views. cbv zeta.
  cbn [passPure plusPoints v_completed v_early v_streak v_points ach_id ach_points
       first_task streak_7 tasks_100 early_10 points_1000 tasks_10].
  destruct (locked "first_task" && (1 <=? c)%nat);
  destruct (locked "streak_7" && (7 <=? s));
  destruct (locked "tasks_100" && (100 <=? c)%nat);
  destruct (locked "early_10" && (10 <=? e)%nat);
  cbn [plusIf consIf passPure plusPoints v_completed v_early v_streak v_points
       ach_id ach_points];
  match goal with |- context [locked "points_1000" && ?b] =>
    destruct (locked "points_1000" && b) end;
  destruct (locked "tasks_10" && (10 <=? c)%nat);
  reflexivity.
Qed.

(** [checkAchievements] in closed form: it never throws for an existing
    user, returns the entries of [unlockedBy] stamped with the clock
    reading, and leaves the store of [grantAll]. *)
Lemma checkAchievements_closed now userId st u :
  findUser userId st = Some u ->
  checkAchievements now userId st
  = (grantAll now userId (unlockedBy (lockedIn userId st) (viewOf userId u st)) st,
     Ok (stamp now (unlockedBy (lockedIn userId st) (viewOf userId u st)))).
Proof.
  intros Hu. unfold checkAchievements.
  change ACHIEVEMENTS with (map fst ACHIEVEMENTS_views).
  rewrite (checkLoop_passPure now userId ACHIEVEMENTS_views
             ACHIEVEMENTS_ids_NoDup ACHIEVEMENTS_checksAs st u [] Hu).
  now rewrite passPure_ACHIEVEMENTS.
Qed.

(** * The completion route *)

Lemma stamp_unl_ach now l : map unl_ach (stamp now l) = l.
Proof.
  unfold stamp. rewrite map_map. simpl. apply map_id.
Qed.

Lemma awardedStore_findUser userId st u t pts :
  findUser userId st = Some u ->
  findUser userId (awardedStore userId (addPoints pts u) t st)
  = Some (addPoints pts u).
Proof.
  intros Hu. unfold findUser, awardedStore. simpl. rewrite find_replaceFirst.
  - unfold findUser in Hu. now rewrite Hu.
  - simpl. apply N.eqb_eq. now apply (findUser_id userId st).
Qed.

Lemma completeTask_ok clk userId id st u t :
  findUser userId st = Some u ->
  findTask id userId st = Some t ->
  task_status t = Pending ->
  task_title t <> "" ->
  let t' := markCompleted (completedNow clk) t in
  let pts := awardPoints (awardNow clk) t' in
  let st1 := awardedStore userId (addPoints pts u) t' st in
  let new := unlockedBy (lockedIn userId st1) (viewOf userId (addPoints pts u) st1) in
  completeTask clk (Bearer userId) id st
  = (grantAll (unlockNow clk) userId new st1,
     Json 200 (mkCompleteBody t' pts (user_points u + pts) (stamp (unlockNow clk) new))).
Proof.
  intros Hu Ht Hs Hn t' pts st1 new.
  pose proof (findUser_id _ _ _ Hu) as Hid.
  pose proof (awardedStore_findUser userId st u t' pts Hu) as Hu1. fold st1 in Hu1.
  apply String.eqb_neq in Hn.
  unfold completeTask, authMiddleware.
  unfold findUser in Hu. rewrite Hu.
  unfold tryCatch. unfold bind at 1. unfold Task_findOne, gets.
  rewrite Hid. unfold findTask in Ht. rewrite Ht. rewrite Hs. cbn [Status_eqb].
  unfold bind at 1. unfold Task_save. cbn [task_title markCompleted]. rewrite Hn.
  unfold bind at 1. unfold User_save, modify.
  cbn [user_id addPoints]. rewrite Hid.
  unfold bind at 1.
  change (withUsers _ _) with st1.
  rewrite (checkAchievements_closed (unlockNow clk) userId st1 _ Hu1).
  reflexivity.
Qed.

(** A pending task whose title has been blanked does not pass the
    validation of [task.save()]: the request answers 500 and nothing is
    written. *)
Lemma completeTask_blank_title clk userId id st u t :
  findUser userId st = Some u ->
  findTask id userId st = Some t ->
  task_status t = Pending ->
  task_title t = "" ->
  completeTask clk (Bearer userId) id st = (st, Error 500 "Server error").
Proof.
  intros Hu Ht Hs Hn.
  pose proof (findUser_id _ _ _ Hu) as Hid.
  unfold completeTask, authMiddleware. unfold findUser in Hu. rewrite Hu.
  unfold tryCatch. unfold bind at 1. unfold Task_findOne, gets.
  rewrite Hid. unfold findTask in Ht. rewrite Ht, Hs. cbn [Status_eqb].
  unfold bind at 1. unfold Task_save. cbn [task_title markCompleted].
  now rewrite Hn.
Qed.

Lemma awardPoints_markCompleted now now' t :
  awardPoints now (markCompleted now' t) = awardPoints now t.
Proof. reflexivity. Qed.

Lemma awardPoints_bonus now t :
  beatsDeadline now t -> awardPoints now t = basePoints (task_priority t) + 25.
Proof.
  intros [Ht [d [Hd Hlt]]]. unfold awardPoints. rewrite Ht, Hd. simpl.
  apply Z.ltb_lt in Hlt. rewrite Hlt. now destruct (task_priority t).
Qed.

Lemma awardPoints_base now t :
  ~ beatsDeadline now t -> awardPoints now t = basePoints (task_priority t).
Proof.
  intros Hn. unfold awardPoints.
  destruct (task_type t) eqn:Ht; simpl.
  - now destruct (task_priority t).
  - destruct (task_deadline t) as [d|] eqn:Hd.
    + destruct (now <? d) eqn:Hlt.
      * exfalso. apply Hn. split; [assumption|]. exists d. split; [exact Hd|].
        now apply Z.ltb_lt.
      * now destruct (task_priority t).
    + now destruct (task_priority t).
Qed.


(** * Claims about the completion route *)

(** What a successful completion awards, in terms of the clock read when
    the award is computed: 50, 75 or 100 base points for priority low,
    medium or high, plus 25 exactly when the task is of type deadline, has
    a deadline, and that clock reading is strictly before it; a daily task
    gets the base only.  [pointsEarned] is that sum; it is added to the
    user's points, in the response and in the stored user. *)
Lemma completeTask_awards clk userId id st u t :
  findUser userId st = Some u ->
  findTask id userId st = Some t ->
  task_status t = Pending ->
  task_title t <> "" ->
  exists st' body u',
    completeTask clk (Bearer userId) id st = (st', Json 200 body)
    /\ (beatsDeadline (awardNow clk) t ->
        pointsEarned body = basePoints (task_priority t) + 25)
    /\ (~ beatsDeadline (awardNow clk) t ->
        pointsEarned body = basePoints (task_priority t))
    /\ (task_type t = Daily -> pointsEarned body = basePoints (task_priority t))
    /\ task_status (body_task body) = Completed
    /\ task_completedAt (body_task body) = Some (completedNow clk)
    /\ totalPoints body = user_points u + pointsEarned body
    /\ findUser userId st' = Some u'
    /\ user_points u'
       = user_points u + pointsEarned body
         + sumPoints (map unl_ach (newAchievements body)).
Proof.
  intros Hu Ht Hs Hn.
  pose proof (completeTask_ok clk userId id st u t Hu Ht Hs Hn) as H. cbv zeta in H.
  rewrite awardPoints_markCompleted in H.
  set (pts := awardPoints (awardNow clk) t) in *.
  set (t' := markCompleted (completedNow clk) t) in *.
  set (st1 := awardedStore userId (addPoints pts u) t' st) in *.
  set (new := unlockedBy (lockedIn userId st1) (viewOf userId (addPoints pts u) st1)) in *.
  pose proof (awardedStore_findUser userId st u t' pts Hu) as Hu1. fold st1 in Hu1.
  eexists _, _, _. split; [exact H|]. cbn [pointsEarned totalPoints body_task newAchievements].
  repeat split.
  - apply awardPoints_bonus.
  - apply awardPoints_base.
  - intros Hd. apply awardPoints_base. intros [Hx _]. congruence.
  - apply (grantAll_findUser _ _ _ _ _ Hu1).
  - rewrite stamp_unl_ach. rewrite addPoints_addPoints. simpl. lia.
Qed.

(** When the clock does not run backwards between the two readings, a
    bonus is only ever paid to a task recorded as completed before its
    deadline; the converse is what the request below breaks. *)
Lemma bonus_implies_completed_early clk t :
  completedNow clk <= awardNow clk ->
  beatsDeadline (awardNow clk) t -> beatsDeadline (completedNow clk) t.
Proof.
  intros Hle [Ht [d [Hd Hlt]]]. split; [exact Ht|]. exists d. split; [exact Hd | lia].
Qed.

(** C1 at the failing input.  Alice's essay, a high-priority deadline task,
    is due at 5000.  The request reads the clock at 4999 for [completedAt]
    and, after the save, at 5000 for the bonus test.  The task is stored as
    completed before its deadline, and counts as such for early_10, but the
    request earns the base 100 without the bonus of 25. *)
Theorem bonus_tested_after_completedAt :
  task_type essay = Deadline
  /\ task_deadline essay = Some 5000
  /\ task_priority essay = High
  /\ task_status essay = Pending
  /\ match snd (completeTask lastInstant (Bearer 1) 20 aliceStore) with
     | Json 200 body =>
         task_completedAt (body_task body) = Some 4999
         /\ bson_lt (task_completedAt (body_task body)) (task_deadline (body_task body))
            = true
         /\ pointsEarned body = 100
     | _ => False
     end
  /\ countDocuments (earlyOf 1)
                    (tasks (fst (completeTask lastInstant (Bearer 1) 20 aliceStore)))
     = 1%nat.
Proof. vm_compute. repeat split; reflexivity. Qed.

(** C2.  Completing a task that is already completed answers 400 "Task
    already completed" and returns the store it was given: task, user
    points and unlock records are all as before. *)
Theorem complete_twice_rejected clk userId id st u t :
  findUser userId st = Some u ->
  findTask id userId st = Some t ->
  task_status t = Completed ->
  completeTask clk (Bearer userId) id st = (st, Error 400 "Task already completed").
Proof.
  intros Hu Ht Hs.
  pose proof (findUser_id _ _ _ Hu) as Hid.
  unfold completeTask, authMiddleware. unfold findUser in Hu. rewrite Hu.
  unfold tryCatch, bind, Task_findOne, gets. rewrite Hid.
  unfold findTask in Ht. rewrite Ht. rewrite Hs. reflexivity.
Qed.

Lemma complete_twice_rejected_witness :
  findUser 1 aliceDoneStore = Some alice
  /\ findTask 20 1 aliceDoneStore = Some essayDone
  /\ task_status essayDone = Completed
  /\ completeTask noon (Bearer 1) 20 aliceDoneStore
     = (aliceDoneStore, Error 400 "Task already completed").
Proof.
  split; [reflexivity|]. split; [reflexivity|]. split; [reflexivity|].
  apply (complete_twice_rejected noon 1%N 20%N aliceDoneStore alice essayDone);
    reflexivity.
Defined.



(** The scenario of the specification: 950 points, a high-priority
    deadline task completed early; [first_task] and [points_1000] unlock in
    the same request, the response reports 1075 and the store holds 1425. *)
Example complete_essay :
  let r := completeTask noon (Bearer 1) 20 aliceStore in
  (match snd r with
   | Json 200 body =>
       pointsEarned body = 125 /\ totalPoints body = 1075
       /\ map (fun x => ach_id (unl_ach x)) (newAchievements body)
          = ["first_task"; "points_1000"]
   | _ => False
   end)
  /\ option_map user_points (findUser 1 (fst r)) = Some 1425.
Proof. vm_compute. repeat split; reflexivity. Qed.

(** * Claims about [checkAchievements] *)

Lemma In_consIf {A} (b : bool) (x a : A) (l : list A) :
  In a (consIf b x l) -> (b = true /\ a = x) \/ In a l.
Proof.
  destruct b; simpl; [|now right].
  intros [H|H]; [left; now split | now right].
Qed.

Lemma unlockedBy_locked locked v a :
  In a (unlockedBy locked v) -> locked (ach_id a) = true.
Proof.
  unfold unlockedBy, pick. cbv zeta. intros H.
  repeat (apply In_consIf in H;
          destruct H as [[Hb ->]|H];
          [apply andb_prop in Hb; exact (proj1 Hb)|]).
  destruct H.
Qed.

Lemma hasId_pick b1 b2 b3 b4 b5 b6 :
  hasId "first_task" (pick b1 b2 b3 b4 b5 b6) = b1
  /\ hasId "streak_7" (pick b1 b2 b3 b4 b5 b6) = b2
  /\ hasId "tasks_100" (pick b1 b2 b3 b4 b5 b6) = b3
  /\ hasId "early_10" (pick b1 b2 b3 b4 b5 b6) = b4
  /\ hasId "points_1000" (pick b1 b2 b3 b4 b5 b6) = b5
  /\ hasId "tasks_10" (pick b1 b2 b3 b4 b5 b6) = b6.
Proof.
  destruct b1, b2, b3, b4, b5, b6; vm_compute; repeat split.
Qed.

Lemma sumPoints_pick b1 b2 b3 b4 b5 b6 :
  sumPoints (pick b1 b2 b3 b4 b5 b6)
  = plusIf b6 100 (plusIf b5 300 (plusIf b4 150 (plusIf b3 500
      (plusIf b2 200 (plusIf b1 50 0))))).
Proof.
  destruct b1, b2, b3, b4, b5, b6; reflexivity.
Qed.

Lemma relock_false (l q b : bool) : b = l && q -> l && negb b && q = false.
Proof. intros ->. now destruct l, q. Qed.

(** Two passes in a row, on views: the second can only unlock
    [points_1000], and only after the first unlocked [tasks_10] without
    [points_1000]. *)
Lemma second_pass locked v :
  let new1 := unlockedBy locked v in
  let locked1 := fun id => locked id && negb (hasId id new1) in
  let new2 := unlockedBy locked1 (plusPoints (sumPoints new1) v) in
  (new2 = [] \/ new2 = [points_1000])
  /\ (new2 <> [] ->
      hasId "tasks_10" new1 = true /\ hasId "points_1000" new1 = false).
Proof.
  destruct v as [c e s p]. cbv zeta.
  unfold unlockedBy at 2. cbv zeta beta.
  cbn [v_completed v_early v_streak v_points plusPoints].
  unfold unlockedBy. cbv zeta.
  cbn [v_completed v_early v_streak v_points].
  set (b1 := locked "first_task" && (1 <=? c)%nat).
  set (b2 := locked "streak_7" && (7 <=? s)).
  set (b3 := locked "tasks_100" && (100 <=? c)%nat).
  set (b4 := locked "early_10" && (10 <=? e)%nat).
  set (seen := plusIf b4 150 (plusIf b3 500 (plusIf b2 200 (plusIf b1 50 p)))).
  set (b5 := locked "points_1000" && (1000 <=? seen)).
  set (b6 := locked "tasks_10" && (10 <=? c)%nat).
  destruct (hasId_pick b1 b2 b3 b4 b5 b6) as (H1 & H2 & H3 & H4 & H5 & H6).
  rewrite H1, H2, H3, H4, H5, H6, sumPoints_pick.
  cbn [v_completed v_early v_streak v_points plusPoints].
  rewrite (relock_false (locked "first_task") (1 <=? c)%nat b1 eq_refl).
  rewrite (relock_false (locked "streak_7") (7 <=? s) b2 eq_refl).
  rewrite (relock_false (locked "tasks_100") (100 <=? c)%nat b3 eq_refl).
  rewrite (relock_false (locked "early_10") (10 <=? e)%nat b4 eq_refl).
  rewrite (relock_false (locked "tasks_10") (10 <=? c)%nat b6 eq_refl).
  cbn [plusIf pick consIf].
  set (p1 := p + plusIf b6 100 (plusIf b5 300 (plusIf b4 150 (plusIf b3 500
               (plusIf b2 200 (plusIf b1 50 0)))))).
  destruct (locked "points_1000" && negb b5 && (1000 <=? p1)) eqn:E.
  - split; [now right|]. intros _.
    apply andb_prop in E as [E E1]. apply andb_prop in E as [E5 Eb5].
    apply negb_true_iff in Eb5. split; [|exact Eb5].
    unfold b5 in Eb5. rewrite E5 in Eb5. simpl in Eb5.
    apply Z.leb_le in E1. apply Z.leb_gt in Eb5.
    destruct b6; [reflexivity|]. exfalso.
    assert (Hb5 : b5 = false) by (unfold b5; rewrite E5; simpl; now apply Z.leb_gt).
    unfold p1, seen in *. rewrite Hb5 in E1.
    destruct b1, b2, b3, b4; cbn [plusIf] in *; lia.
  - split; [now left|]. intros H. now exfalso.
Qed.



(** With 950 points and one completed task, the reward of [first_task]
    lifts the points to 1000 and [points_1000] unlocks in the same pass. *)
Example earlier_reward_counts :
  newIds (checkAchievements 4000 1 aliceDoneStore) = ["first_task"; "points_1000"]
  /\ option_map user_points (findUser 1 (fst (checkAchievements 4000 1 aliceDoneStore)))
     = Some 1300.
Proof. vm_compute. split; reflexivity. Qed.


(** C6, as the code has it.  The second of two passes in a row returns
    either nothing or exactly [points_1000]; the latter can happen only
    when the first pass unlocked tasks_10 and did not unlock points_1000.
    The second pass never unlocks an id that is unlocked already, and
    every unlock that exists before it exists after it. *)
Theorem checkAchievements_twice now1 now2 userId st u :
  findUser userId st = Some u ->
  let r1 := checkAchievements now1 userId st in
  let r2 := checkAchievements now2 userId (fst r1) in
  exists new1 new2,
    snd r1 = Ok (stamp now1 new1)
    /\ snd r2 = Ok (stamp now2 new2)
    /\ (new2 = [] \/ new2 = [points_1000])
    /\ (new2 <> [] ->
        hasId "tasks_10" new1 = true /\ hasId "points_1000" new1 = false)
    /\ (forall a, In a new2 -> isUnlocked userId (ach_id a) (fst r1) = false)
    /\ (forall id, isUnlocked userId id (fst r1) = true ->
                   isUnlocked userId id (fst r2) = true).
Proof.
  intros Hu r1 r2. unfold r2, r1.
  rewrite (checkAchievements_closed now1 userId st u Hu). cbn [fst snd].
  set (new1 := unlockedBy (lockedIn userId st) (viewOf userId u st)).
  pose proof (grantAll_findUser now1 userId new1 st u Hu) as Hu1.
  rewrite (checkAchievements_closed now2 userId _ _ Hu1). cbn [fst snd].
  rewrite grantAll_view.
  set (st1 := grantAll now1 userId new1 st).
  assert (HL : unlockedBy (lockedIn userId st1)
                 (plusPoints (sumPoints new1) (viewOf userId u st))
               = unlockedBy (fun id => lockedIn userId st id && negb (hasId id new1))
                   (plusPoints (sumPoints new1) (viewOf userId u st))).
  { unfold unlockedBy, lockedIn, st1.
    rewrite !(grantAll_isUnlocked now1 userId new1 _ st u Hu).
    now rewrite !negb_orb. }
  rewrite HL.
  destruct (second_pass (lockedIn userId st) (viewOf userId u st)) as [Hshape Hwhen].
  fold new1 in Hshape, Hwhen.
  set (new2 := unlockedBy (fun id => lockedIn userId st id && negb (hasId id new1))
                 (plusPoints (sumPoints new1) (viewOf userId u st))) in *.
  exists new1, new2. repeat split; try reflexivity; try assumption.
  - now apply Hwhen.
  - now apply Hwhen.
  - intros a Ha. rewrite <- HL in Ha.
    apply unlockedBy_locked in Ha. unfold lockedIn in Ha.
    now apply negb_true_iff in Ha.
  - intros id Hid.
    rewrite (grantAll_isUnlocked now2 userId new2 id st1 _ Hu1).
    now rewrite Hid.
Qed.

Lemma checkAchievements_twice_witness :
  findUser 3 carolStore = Some carol
  /\ let r1 := checkAchievements 0 3 carolStore in
     let r2 := checkAchievements 1 3 (fst r1) in
     exists new1 new2,
       snd r1 = Ok (stamp 0 new1)
       /\ snd r2 = Ok (stamp 1 new2)
       /\ (new2 = [] \/ new2 = [points_1000])
       /\ (new2 <> [] ->
           hasId "tasks_10" new1 = true /\ hasId "points_1000" new1 = false)
       /\ (forall a, In a new2 -> isUnlocked 3 (ach_id a) (fst r1) = false)
       /\ (forall id, isUnlocked 3 id (fst r1) = true ->
                      isUnlocked 3 id (fst r2) = true).
Proof.
  split; [reflexivity|].
  apply (checkAchievements_twice 0 1 3%N carolStore carol). reflexivity.
Defined.

(** C6 as stated fails: for Carol the first pass unlocks tasks_10, which
    brings her to 1000 points after points_1000 was tested, and the second
    pass, with nothing changed in between, unlocks points_1000. *)
Lemma checkAchievements_second_pass_not_empty :
  let r1 := checkAchievements 0 3 carolStore in
  let r2 := checkAchievements 1 3 (fst r1) in
  newIds r1 = ["tasks_10"]
  /\ newIds r2 = ["points_1000"]
  /\ snd r2 <> Ok [].
Proof.
  cbv zeta.
  assert (H : newIds (checkAchievements 1 3 (fst (checkAchievements 0 3 carolStore)))
              = ["points_1000"]) by (vm_compute; reflexivity).
  split; [vm_compute; reflexivity|]. split; [exact H|].
  intros E. unfold newIds in H. rewrite E in H. discriminate.
Qed.

(** * The login route *)

Lemma updateStreak_id h todayNow u : user_id (updateStreak h todayNow u) = user_id u.
Proof.
  unfold updateStreak.
  destruct (Qeq_bool _ 1); [reflexivity|]. now destruct (negb _).
Qed.

Lemma updateStreak_next h todayNow u :
  (dayDiffOf h todayNow (user_lastActiveDate u) == 1)%Q ->
  user_streak (updateStreak h todayNow u) = user_streak u + 1.
Proof.
  intros H. unfold updateStreak. apply Qeq_bool_iff in H. now rewrite H.
Qed.

Lemma updateStreak_reset h todayNow u :
  (1 < dayDiffOf h todayNow (user_lastActiveDate u))%Q ->
  user_streak (updateStreak h todayNow u) = 1.
Proof.
  intros H. unfold updateStreak.
  destruct (Qeq_bool _ 1) eqn:E.
  - apply Qeq_bool_iff in E. rewrite E in H. now apply Qlt_irrefl in H.
  - destruct (Qle_bool _ 1) eqn:L; [|reflexivity].
    apply Qle_bool_iff in L. exfalso. now apply (Qlt_not_le _ _ H).
Qed.

Lemma updateStreak_keep h todayNow u :
  (dayDiffOf h todayNow (user_lastActiveDate u) <= 0)%Q ->
  user_streak (updateStreak h todayNow u) = user_streak u.
Proof.
  intros H. unfold updateStreak.
  destruct (Qeq_bool _ 1) eqn:E.
  - apply Qeq_bool_iff in E. rewrite E in H. exfalso.
    apply (Qlt_not_le 0 1); [reflexivity | exact H].
  - destruct (Qle_bool _ 1) eqn:L; [reflexivity|]. exfalso.
    assert (Hle : (dayDiffOf h todayNow (user_lastActiveDate u) <= 1)%Q).
    { apply (Qle_trans _ 0); [exact H | discriminate]. }
    apply Qle_bool_iff in Hle. congruence.
Qed.

(** On a host in UTC the day difference is a whole number of days. *)
Lemma dayDiffOf_utc todayNow lastActiveDate :
  (dayDiffOf utcMidnight todayNow lastActiveDate
   == inject_Z (utcDay todayNow - utcDay lastActiveDate))%Q.
Proof.
  unfold dayDiffOf, utcMidnight, utcDay.
  set (a := todayNow / msPerDay). set (b := lastActiveDate / msPerDay).
  unfold msPerDay. unfold Qeq, Qdiv, Qmult, Qinv, inject_Z. simpl. lia.
Qed.

(** The streak examples of the specification, in UTC: last active
    yesterday, five days ago, and earlier today. *)
Example streak_yesterday :
  user_streak (updateStreak utcMidnight (3 * msPerDay + 9 * hour)
                 (mkUser 1 "A" "a" "h" 0 4 (2 * msPerDay + 20 * hour) 0)) = 5.
Proof. reflexivity. Qed.

Example streak_five_days_ago :
  user_streak (updateStreak utcMidnight (7 * msPerDay + 9 * hour)
                 (mkUser 1 "A" "a" "h" 0 4 (2 * msPerDay + 20 * hour) 0)) = 1.
Proof. reflexivity. Qed.

Example streak_same_day :
  user_streak (updateStreak utcMidnight (2 * msPerDay + 21 * hour)
                 (mkUser 1 "A" "a" "h" 0 4 (2 * msPerDay + 20 * hour) 0)) = 4.
Proof. reflexivity. Qed.

(** The cases of the login route in terms of its own [dayDiff], for any
    host: the stored streak is the old one plus 1 when [dayDiff] is 1, is 1
    when [dayDiff] exceeds 1, and is the old one when [dayDiff] is 0 or
    negative; [lastActiveDate] becomes the current clock reading, not
    normalised, in every case.  What [dayDiff] is depends on the host: see
    [dayDiffOf_utc] and the two logins in New York below. *)
Theorem login_updates_streak
    (bcrypt_compare : string -> string -> bool) (toLowerCase : string -> string)
    (setHoursZero : Date -> Date)
    todayNow activeNow email password st u :
  find (fun x => String.eqb (user_email x) (toLowerCase email)) (users st) = Some u ->
  bcrypt_compare password (user_password u) = true ->
  let dayDiff := dayDiffOf setHoursZero todayNow (user_lastActiveDate u) in
  exists st' body u',
    login bcrypt_compare toLowerCase setHoursZero todayNow activeNow email password st
    = (st', Json 200 body)
    /\ findUser (user_id u) st' = Some u'
    /\ ((dayDiff == 1)%Q -> user_streak u' = user_streak u + 1)
    /\ ((1 < dayDiff)%Q -> user_streak u' = 1)
    /\ ((dayDiff <= 0)%Q -> user_streak u' = user_streak u)
    /\ user_lastActiveDate u' = activeNow
    /\ user_points u' = user_points u
    /\ login_streak body = user_streak u'.
Proof.
  intros Hf Hpw dayDiff.
  set (u1 := setLastActiveDate activeNow (updateStreak setHoursZero todayNow u)).
  exists (withUsers (replaceFirst (fun x => N.eqb (user_id x) (user_id u)) u1 (users st)) st),
         (mkLoginBody (user_id u1) (user_id u1) (user_name u1) (user_email u1)
                      (user_points u1) (user_streak u1)),
         u1.
  assert (Hid : user_id u1 = user_id u) by apply updateStreak_id.
  split.
  - unfold login, tryCatch. unfold bind at 1. unfold User_findOneByEmail, gets.
    rewrite Hf, Hpw. cbn [negb]. unfold bind, User_save, modify. fold u1.
    now rewrite Hid.
  - split.
    + unfold findUser. cbn [users withUsers].
      rewrite find_replaceFirst by (rewrite Hid; apply N.eqb_refl).
      destruct (find (fun x => N.eqb (user_id x) (user_id u)) (users st)) eqn:E;
        [reflexivity|].
      exfalso. apply find_some in Hf as [Hin _].
      apply (find_In_not_None _ _ u Hin (N.eqb_refl _) E).
    + unfold u1. cbn [user_streak user_lastActiveDate user_points setLastActiveDate].
      repeat split.
      * apply updateStreak_next.
      * apply updateStreak_reset.
      * apply updateStreak_keep.
      * unfold updateStreak. destruct (Qeq_bool _ 1); [reflexivity|].
        now destruct (negb _).
Qed.

Lemma login_updates_streak_witness :
  find (fun x => String.eqb (user_email x) "alice@example.com") (users aliceStore)
  = Some alice
  /\ String.eqb "hash-a" (user_password alice) = true
  /\ let dayDiff := dayDiffOf utcMidnight (msPerDay + 9 * hour) (user_lastActiveDate alice) in
     exists st' body u',
       login String.eqb (fun s => s) utcMidnight (msPerDay + 9 * hour)
             (msPerDay + 9 * hour + 1) "alice@example.com" "hash-a" aliceStore
       = (st', Json 200 body)
       /\ findUser (user_id alice) st' = Some u'
       /\ ((dayDiff == 1)%Q -> user_streak u' = user_streak alice + 1)
       /\ ((1 < dayDiff)%Q -> user_streak u' = 1)
       /\ ((dayDiff <= 0)%Q -> user_streak u' = user_streak alice)
       /\ user_lastActiveDate u' = msPerDay + 9 * hour + 1
       /\ user_points u' = user_points alice
       /\ login_streak body = user_streak u'.
Proof.
  split; [reflexivity|]. split; [reflexivity|].
  apply (login_updates_streak String.eqb (fun s => s) utcMidnight
           (msPerDay + 9 * hour) (msPerDay + 9 * hour + 1)
           "alice@example.com" "hash-a" aliceStore alice); reflexivity.
Defined.

(** Alice was last active on day 0 and logs in on day 1: the streak goes
    from 6 to 7. *)
Example login_alice_next_day :
  match snd (login String.eqb (fun s => s) utcMidnight (msPerDay + 9 * hour)
               (msPerDay + 9 * hour + 1) "alice@example.com" "hash-a" aliceStore) with
  | Json 200 body => login_streak body = 7
  | _ => False
  end.
Proof. reflexivity. Qed.

(** * Isolation between users *)

(** The task route filters by owner: whatever id Alice passes, the tasks
    of everybody else stay as they are. *)
Lemma removeFirst_keeps_others {A} (p keep : A -> bool) (l : list A) :
  (forall x, p x = true -> keep x = false) ->
  filter keep (removeFirst p l) = filter keep l.
Proof.
  intros H. induction l as [|x r IH]; simpl; [reflexivity|].
  destruct (p x) eqn:E.
  - now rewrite (H x E).
  - simpl. now rewrite IH.
Qed.

Lemma deleteTask_keeps_others userId id st :
  filter (notOwnedBy userId) (tasks (fst (deleteTask (Bearer userId) id st)))
  = filter (notOwnedBy userId) (tasks st).
Proof.
  unfold deleteTask, authMiddleware.
  destruct (find _ (users st)) as [u|] eqn:Hu; [|reflexivity].
  pose proof (findUser_id userId st u Hu) as Hid.
  run_route. cbn [fst tasks withTasks].
  apply removeFirst_keeps_others.
  intros x Hx. apply andb_prop in Hx as [_ Hx]. apply N.eqb_eq in Hx.
  unfold notOwnedBy. rewrite Hx, Hid. now rewrite N.eqb_refl.
Qed.

(** The section document itself is deleted with an owner filter too. *)
Lemma deleteSection_keeps_other_sections userId id st :
  filter (fun s => negb (ownSection userId s))
         (sections (fst (deleteSection (Bearer userId) id st)))
  = filter (fun s => negb (ownSection userId s)) (sections st).
Proof.
  unfold deleteSection, authMiddleware.
  destruct (find _ (users st)) as [u|] eqn:Hu; [|reflexivity].
  pose proof (findUser_id userId st u Hu) as Hid.
  run_route. cbn [fst sections withSections withSubsections withTasks].
  apply removeFirst_keeps_others.
  intros x Hx. apply andb_prop in Hx as [_ Hx]. apply N.eqb_eq in Hx.
  unfold ownSection. rewrite Hx, Hid. now rewrite N.eqb_refl.
Qed.

(** C3 at the failing input.  Alice (user 1) deletes section 40 and then,
    from the same starting store, subsection 41, both owned by Bob
    (user 2).  The section and the subsection documents survive, because
    their deletes filter by owner, but the cascading [deleteMany] calls do
    not: Bob's tasks and subsection are gone. *)
Theorem delete_crosses_users :
  Forall (fun t => task_userId t = 2%N) (tasks bobStore)
  /\ (let st' := fst (deleteSection (Bearer 1) 40 bobStore) in
      snd (deleteSection (Bearer 1) 40 bobStore) = Json 200 "Section deleted"
      /\ sections st' = [bobSection]
      /\ subsections st' = []
      /\ tasks st' = [])
  /\ (let st' := fst (deleteSubsection (Bearer 1) 41 bobStore) in
      snd (deleteSubsection (Bearer 1) 41 bobStore) = Json 200 "Subsection deleted"
      /\ subsections st' = [bobSubsection]
      /\ tasks st' = [bobTask43]).
Proof.
  split.
  - repeat constructor.
  - split; vm_compute; repeat split; reflexivity.
Qed.

(** * Section orders *)

Lemma createSection_ok now userId title icon st u :
  findUser userId st = Some u ->
  title <> "" ->
  let section :=
    mkSection (nextId st) userId title
              (match icon with Some i => i | None => "📁" end)
              (Z.of_nat (countDocuments (ownSection userId) (sections st))) now in
  createSection now (Bearer userId) (Some title) icon st
  = (bumpId (withSections (sections st ++ [section]) st),
     Json 201 (mkSectionView section [] [] 0%float)).
Proof.
  intros Hu Ht section.
  pose proof (findUser_id _ _ _ Hu) as Hid.
  apply String.eqb_neq in Ht.
  unfold createSection, authMiddleware. unfold findUser in Hu. rewrite Hu, Ht.
  run_route. rewrite Hid. reflexivity.
Qed.

Lemma createSection_sections now auth title icon st :
  sections (fst (createSection now auth title icon st)) = sections st
  \/ exists s,
       sections (fst (createSection now auth title icon st)) = sections st ++ [s]
       /\ sec_order s
          = Z.of_nat (countDocuments (ownSection (sec_userId s)) (sections st)).
Proof.
  destruct auth as [| |userId]; [now left | now left |].
  unfold createSection, authMiddleware.
  destruct (find _ (users st)) as [u|] eqn:Hu; [|now left].
  destruct title as [t|]; [|now left].
  destruct (String.eqb t "") eqn:Et; [now left|].
  right. eexists. split; reflexivity.
Qed.

Lemma ordersOf_append userId st st' s :
  sections st' = sections st ++ [s] ->
  ordersOf userId st'
  = ordersOf userId st ++ (if ownSection userId s then [sec_order s] else []).
Proof.
  intros H. unfold ordersOf. rewrite H, filter_app, map_app. simpl.
  now destruct (ownSection userId s).
Qed.

Lemma create_contiguous now uid title icon st :
  contiguous st -> contiguous (runOp st (OpCreate now uid title icon)).
Proof.
  intros Hc userId. cbn [runOp].
  destruct (createSection_sections now (Bearer uid) title icon st) as [E|(s & E & Ho)].
  - unfold ordersOf, countDocuments in *. rewrite E. apply Hc.
  - rewrite (ordersOf_append userId st _ _ E). rewrite E.
    pose proof (Hc userId) as Hu. unfold countDocuments in *.
    rewrite filter_app. cbn [filter].
    destruct (ownSection userId s) eqn:Eo.
    + unfold ownSection in Eo. apply N.eqb_eq in Eo. rewrite Eo in Ho.
      rewrite length_app. cbn [List.length]. rewrite Nat.add_1_r.
      rewrite seq_S, map_app. cbn [map Nat.add]. now rewrite <- Hu, Ho.
    + rewrite !app_nil_r. exact Hu.
Qed.

Lemma runOps_contiguous ops :
  Forall isCreate ops -> forall st, contiguous st -> contiguous (runOps ops st).
Proof.
  induction 1 as [|op ops Hop _ IH]; intros st Hc; [exact Hc|].
  unfold runOps in *. cbn [fold_left]. apply IH.
  destruct op as [now uid title icon|]; [|destruct Hop].
  now apply create_contiguous.
Qed.

Lemma contiguous_NoDup userId st : contiguous st -> NoDup (ordersOf userId st).
Proof.
  intros Hc. rewrite (Hc userId).
  apply Injective_map_NoDup; [|apply seq_NoDup].
  intros a b. apply Nat2Z.inj.
Qed.

(** C8, as the code has it.  In every state reached from a store without
    sections through section creations alone, in any interleaving of
    users, the orders of one user's sections are 0, 1, ..., count - 1 and
    so pairwise distinct; and in any store whatever, a created section
    gets the user's current section count as its order. *)
Theorem section_orders_distinct_without_delete us next ops userId :
  Forall isCreate ops ->
  let st := runOps ops (onlyUsers us next) in
  NoDup (ordersOf userId st)
  /\ ordersOf userId st
     = map Z.of_nat (seq 0 (countDocuments (ownSection userId) (sections st)))
  /\ (forall now uid title icon st0 u,
        findUser uid st0 = Some u ->
        title <> "" ->
        exists section,
          createSection now (Bearer uid) (Some title) icon st0
          = (bumpId (withSections (sections st0 ++ [section]) st0),
             Json 201 (mkSectionView section [] [] 0%float))
          /\ sec_userId section = uid
          /\ sec_order section
             = Z.of_nat (countDocuments (ownSection uid) (sections st0))).
Proof.
  intros Hops st.
  assert (Hc : contiguous st).
  { apply runOps_contiguous; [exact Hops|]. intros x. reflexivity. }
  split; [now apply contiguous_NoDup|]. split; [apply Hc|].
  intros now uid title icon st0 u Hu Ht.
  eexists. split; [apply (createSection_ok now uid title icon st0 u Hu Ht)|].
  split; reflexivity.
Qed.

Lemma section_orders_distinct_without_delete_witness :
  Forall isCreate [OpCreate 0 1 (Some "A") None; OpCreate 5 2 (Some "B") (Some "b");
                   OpCreate 9 1 (Some "C") None]
  /\ let st := runOps [OpCreate 0 1 (Some "A") None; OpCreate 5 2 (Some "B") (Some "b");
                       OpCreate 9 1 (Some "C") None]
                      (onlyUsers [alice; bob] 0) in
     NoDup (ordersOf 1 st)
     /\ ordersOf 1 st
        = map Z.of_nat (seq 0 (countDocuments (ownSection 1) (sections st)))
     /\ (forall now uid title icon st0 u,
           findUser uid st0 = Some u ->
           title <> "" ->
           exists section,
             createSection now (Bearer uid) (Some title) icon st0
             = (bumpId (withSections (sections st0 ++ [section]) st0),
                Json 201 (mkSectionView section [] [] 0%float))
             /\ sec_userId section = uid
             /\ sec_order section
                = Z.of_nat (countDocuments (ownSection uid) (sections st0))).
Proof.
  split; [repeat constructor|].
  apply (section_orders_distinct_without_delete [alice; bob] 0%N
           [OpCreate 0 1 (Some "A") None; OpCreate 5 2 (Some "B") (Some "b");
            OpCreate 9 1 (Some "C") None] 1%N).
  repeat constructor.
Defined.

Example orders_after_three_creates :
  ordersOf 1 (runOps [OpCreate 0 1 (Some "A") None; OpCreate 5 2 (Some "B") (Some "b");
                      OpCreate 9 1 (Some "C") None]
                     (onlyUsers [alice; bob] 0)) = [0; 1].
Proof. reflexivity. Qed.

(** C8 as stated fails once a deletion is interleaved: Alice creates two
    sections (orders 0 and 1), deletes the first, and creates a third,
    which gets order 1 again, the count at that moment. *)
Lemma section_orders_collide_after_delete :
  ordersOf 1 (runOps createDeleteCreate (onlyUsers [alice] 0)) = [1; 1]
  /\ ~ NoDup (ordersOf 1 (runOps createDeleteCreate (onlyUsers [alice] 0))).
Proof.
  assert (H : ordersOf 1 (runOps createDeleteCreate (onlyUsers [alice] 0)) = [1; 1])
    by reflexivity.
  split; [exact H|]. rewrite H. intros N.
  inversion N as [|x l Hnot _]; subst. apply Hnot. now left.
Qed.

(** * Completion percentage *)

Lemma percentOf_nil : percentOf [] = 0%float.
Proof. reflexivity. Qed.

(** Each subsection is aggregated over its own tasks, and the section over
    its direct tasks followed by all tasks of its subsections. *)
Lemma subsectionView_percent st sub :
  subv_completionPercent (subsectionView st sub)
  = percentOf (subv_tasks (subsectionView st sub)).
Proof. reflexivity. Qed.

Lemma sectionView_percent st section :
  secv_completionPercent (sectionView st section)
  = percentOf (secv_tasks (sectionView st section)
               ++ flat_map subv_tasks (secv_subsections (sectionView st section))).
Proof. reflexivity. Qed.

(** The examples of the specification: 1 of 3 is 33; two direct tasks (one
    completed) and a subsection with two completed tasks give 75 for the
    section and 100 for the subsection. *)
Example one_of_three : completionPercent 1 3 = 33%float.
Proof. vm_compute. reflexivity. Qed.

Example union_of_four :
  match snd (getSections (Bearer 1) unionStore) with
  | Json 200 [v] =>
      secv_completionPercent v = 75%float
      /\ map subv_completionPercent (secv_subsections v) = [100%float]
      /\ List.length (secv_tasks v) = 2%nat
  | _ => False
  end.
Proof. vm_compute. repeat split; reflexivity. Qed.

(** Up to 39 tasks the double-precision percentage is the half-up rounding
    of the exact quotient, for every number of completed tasks. *)
Lemma percent_exact_below_40 :
  forallb (fun n =>
    forallb (fun c =>
      PrimFloat.eqb (completionPercent c n) (toNumber (specPercent c n)))
      (seq 0 (S n)))
    (seq 0 40) = true.
Proof. vm_compute. reflexivity. Qed.

(** C7 at the failing input.  With 23 of 40 tasks completed the exact
    percentage is 57.5, which rounds half up to 58; the code divides first
    and multiplies after, the double product is 57.49999999999999, and
    [Math.round] returns 57. *)
Theorem percent_23_of_40 :
  List.length fortyTasks = 40%nat
  /\ List.length (filter isCompleted fortyTasks) = 23%nat
  /\ percentOf fortyTasks = 57%float
  /\ specPercent 23 40 = 58.
Proof. vm_compute. repeat split; reflexivity. Qed.

(** * Weekly heatmap *)

(** The route answers seven summaries, dated [now - 6 days] to [now] in
    steps of 24 hours, whatever the user's tasks are. *)
Lemma weekly_seven_days (calendarDay : Date -> Z) now userId st u :
  findUser userId st = Some u ->
  exists days,
    weekly calendarDay now (Bearer userId) st = (st, Json 200 days)
    /\ map day_date days
       = [now - 6 * msPerDay; now - 5 * msPerDay; now - 4 * msPerDay;
          now - 3 * msPerDay; now - 2 * msPerDay; now - 1 * msPerDay; now].
Proof.
  intros Hu. unfold weekly, authMiddleware. unfold findUser in Hu. rewrite Hu.
  run_route. eexists. split; [reflexivity|].
  unfold msPerDay. cbn [map downFrom day_date daySummary]. repeat f_equal; lia.
Qed.

(** In UTC these are seven consecutive calendar days ending today. *)
Lemma utcDay_days_before now i : utcDay (now - i * msPerDay) = utcDay now - i.
Proof.
  unfold utcDay.
  replace (now - i * msPerDay) with (now + (- i) * msPerDay) by lia.
  rewrite Z.div_add by (unfold msPerDay; lia). lia.
Qed.

(** C9 at the failing input.  At ten o'clock Alice has one task whose
    target date is six in the evening of the same calendar day.  The query
    keeps only dates up to the current instant, so the task is dropped
    before the days are bucketed and today's total is 0. *)
Theorem weekly_drops_later_today :
  task_userId dueTonight = 1%N
  /\ option_map utcDay (task_targetDate dueTonight) = Some (utcDay tenOClock)
  /\ match snd (weekly utcDay tenOClock (Bearer 1) weekStore) with
     | Json 200 days => map day_total days = [0; 0; 0; 0; 0; 0; 0]%nat
     | _ => False
     end.
Proof. vm_compute. repeat split; reflexivity. Qed.

(** Once the evening has come the same task is counted. *)
Example weekly_counts_it_at_night :
  match snd (weekly utcDay (10 * msPerDay + 19 * hour) (Bearer 1) weekStore) with
  | Json 200 days => map day_total days = [0; 0; 0; 0; 0; 0; 1]%nat
  | _ => False
  end.
Proof. vm_compute. reflexivity. Qed.

(** * More on collections with unique ids *)

Lemma find_replaceFirst_key {A} (key : A -> N) (q : A -> bool) (d x : A) (l : list A) :
  NoDup (map key l) ->
  find q l = Some x ->
  q d = true ->
  find q (replaceFirst (fun y => N.eqb (key y) (key x)) d l) = Some d.
Proof.
  intros ND Hf Hd. induction l as [|y r IH]; simpl in *; [discriminate|].
  inversion ND as [|k ks Hnot ND']; subst.
  destruct (q y) eqn:Hq.
  - injection Hf as ->. rewrite N.eqb_refl. simpl. now rewrite Hd.
  - apply find_some in Hf as Hx. destruct Hx as [Hin _].
    destruct (N.eqb (key y) (key x)) eqn:E.
    + apply N.eqb_eq in E. exfalso. apply Hnot. rewrite E. now apply in_map.
    + simpl. rewrite Hq. now apply IH.
Qed.

Lemma find_replaceFirst_other {A} (p q : A -> bool) (d : A) (l : list A) :
  q d = false ->
  (forall x, p x = true -> q x = false) ->
  find q (replaceFirst p d l) = find q l.
Proof.
  intros Hd Hpq. induction l as [|y r IH]; simpl; [reflexivity|].
  destruct (p y) eqn:Hp; simpl.
  - now rewrite Hd, (Hpq y Hp).
  - now rewrite IH.
Qed.

(** With unique keys, replacing by key touches exactly the document
    found. *)
Lemma replaceFirst_split {A} (key : A -> N) (d x : A) (l : list A) :
  NoDup (map key l) ->
  In x l ->
  exists l1 l2,
    l = l1 ++ x :: l2
    /\ replaceFirst (fun y => N.eqb (key y) (key x)) d l = l1 ++ d :: l2.
Proof.
  intros ND Hin. induction l as [|y r IH]; [destruct Hin|].
  inversion ND as [|k ks Hnot ND']; subst. simpl.
  destruct Hin as [->|Hin].
  - rewrite N.eqb_refl. now exists [], r.
  - destruct (N.eqb (key y) (key x)) eqn:E.
    + apply N.eqb_eq in E. exfalso. apply Hnot. rewrite E. now apply in_map.
    + destruct (IH ND' Hin) as (l1 & l2 & E1 & E2).
      exists (y :: l1), l2. simpl. now rewrite E1 at 1; rewrite E2.
Qed.

Lemma countDocuments_split {A} (f : A -> bool) (l1 l2 : list A) (x : A) :
  countDocuments f (l1 ++ x :: l2)
  = (countDocuments f l1 + (if f x then 1 else 0) + countDocuments f l2)%nat.
Proof.
  unfold countDocuments. rewrite filter_app, length_app. simpl.
  destruct (f x); simpl; lia.
Qed.

Lemma countDocuments_le {A} (f g : A -> bool) (l : list A) :
  (forall x, f x = true -> g x = true) ->
  (countDocuments f l <= countDocuments g l)%nat.
Proof.
  intros H. unfold countDocuments. induction l as [|x r IH]; simpl; [lia|].
  destruct (f x) eqn:E.
  - rewrite (H x E). simpl. lia.
  - destruct (g x); simpl; lia.
Qed.

Lemma grant_findUser_other now userId st a other :
  other <> userId ->
  findUser other (grant now userId st a) = findUser other st.
Proof.
  intros Hne. unfold grant. destruct (findUser userId st) as [u|] eqn:Hu; [|reflexivity].
  pose proof (findUser_id _ _ _ Hu) as Hid.
  unfold findUser. simpl. apply find_replaceFirst_other.
  - simpl. apply N.eqb_neq. congruence.
  - intros x Hx. apply N.eqb_eq in Hx. apply N.eqb_neq. congruence.
Qed.

Lemma grantAll_findUser_other now userId new other : forall st,
  other <> userId ->
  findUser other (grantAll now userId new st) = findUser other st.
Proof.
  induction new as [|a r IH]; intros st Hne; [reflexivity|].
  unfold grantAll in *. simpl. rewrite (IH _ Hne).
  now apply grant_findUser_other.
Qed.

Lemma grantAll_achievements_user now userId new : forall st,
  Forall (fun r => unlock_userId r = userId \/ In r (achievements st))
         (achievements (grantAll now userId new st)).
Proof.
  induction new as [|a r IH]; intros st.
  - apply Forall_forall. intros x Hx. now right.
  - unfold grantAll in *. simpl.
    specialize (IH (grant now userId st a)).
    apply Forall_forall. intros x Hx.
    rewrite Forall_forall in IH. destruct (IH x Hx) as [H|H]; [now left|].
    unfold grant in H. destruct (findUser userId st); [|now right].
    simpl in H. apply in_app_or in H as [H|[<-|[]]]; [now right | now left].
Qed.

(** The second completion of a task, without going through the first
    request's result: a completed task is refused and nothing is
    written. *)
Lemma completeTask_completed clk userId id st u t :
  findUser userId st = Some u ->
  findTask id userId st = Some t ->
  task_status t = Completed ->
  completeTask clk (Bearer userId) id st = (st, Error 400 "Task already completed").
Proof.
  intros Hu Ht Hs.
  pose proof (findUser_id _ _ _ Hu) as Hid.
  unfold completeTask, authMiddleware. unfold findUser in Hu. rewrite Hu.
  unfold tryCatch, bind, Task_findOne, gets. rewrite Hid.
  unfold findTask in Ht. rewrite Ht, Hs. reflexivity.
Qed.

Lemma findTask_id id userId st t :
  findTask id userId st = Some t -> task_id t = id /\ task_userId t = userId.
Proof.
  unfold findTask. intros H. apply find_some in H as [_ H].
  apply andb_prop in H as [H1 H2]. split; now apply N.eqb_eq.
Qed.

Lemma replaceFirst_length {A} (p : A -> bool) (d : A) (l : list A) :
  List.length (replaceFirst p d l) = List.length l.
Proof.
  induction l as [|x r IH]; simpl; [reflexivity|].
  destruct (p x); simpl; [reflexivity | now rewrite IH].
Qed.

Lemma getStats_ok userId st u :
  findUser userId st = Some u ->
  getStats (Bearer userId) st
  = (st, Json 200 (mkStatsBody (user_points u) (user_streak u)
                               (countDocuments (completedOf userId) (tasks st))
                               (countDocuments (ownTask userId) (tasks st)))).
Proof.
  intros Hu. pose proof (findUser_id _ _ _ Hu) as Hid.
  unfold getStats, authMiddleware. unfold findUser in Hu. rewrite Hu.
  unfold Task_countDocuments. run_route. now rewrite Hid.
Qed.

(** * Further properties of the completion route *)

(** A task can be completed once: after a successful completion, a second
    request for the same task is refused with 400 and writes nothing, so
    the points are awarded a single time. *)
Theorem completeTask_only_once clk1 clk2 userId id st u t :
  NoDup (map task_id (tasks st)) ->
  findUser userId st = Some u ->
  findTask id userId st = Some t ->
  task_status t = Pending ->
  task_title t <> "" ->
  let st1 := fst (completeTask clk1 (Bearer userId) id st) in
  completeTask clk2 (Bearer userId) id st1
  = (st1, Error 400 "Task already completed").
Proof.
  intros ND Hu Ht Hs Hn st1. unfold st1.
  rewrite (completeTask_ok clk1 userId id st u t Hu Ht Hs Hn). cbn [fst].
  set (t' := markCompleted (completedNow clk1) t).
  set (pts := awardPoints (awardNow clk1) t').
  set (st0 := awardedStore userId (addPoints pts u) t' st).
  set (new := unlockedBy _ _).
  pose proof (awardedStore_findUser userId st u t' pts Hu) as Hu0. fold st0 in Hu0.
  apply (completeTask_completed clk2 userId id _ _ t'
           (grantAll_findUser _ userId new st0 _ Hu0)); [|reflexivity].
  unfold findTask. rewrite grantAll_tasks. unfold st0, awardedStore. cbn [tasks].
  change (fun x : TaskDoc => N.eqb (task_id x) (task_id t'))
    with (fun x : TaskDoc => N.eqb (task_id x) (task_id t)).
  apply (find_replaceFirst_key task_id _ t' t (tasks st) ND Ht).
  destruct (findTask_id _ _ _ _ Ht) as [Hi Ho].
  unfold t'. cbn [task_id task_userId markCompleted].
  now rewrite Hi, Ho, !N.eqb_refl.
Qed.

Lemma completeTask_only_once_witness :
  NoDup (map task_id (tasks aliceStore))
  /\ findUser 1 aliceStore = Some alice
  /\ findTask 20 1 aliceStore = Some essay
  /\ task_status essay = Pending
  /\ task_title essay <> ""
  /\ let st1 := fst (completeTask noon (Bearer 1) 20 aliceStore) in
     completeTask noon (Bearer 1) 20 st1 = (st1, Error 400 "Task already completed").
Proof.
  split; [repeat constructor; simpl; tauto|].
  split; [reflexivity|]. split; [reflexivity|]. split; [reflexivity|].
  split; [discriminate|].
  apply (completeTask_only_once noon noon 1%N 20%N aliceStore alice essay);
    try reflexivity; try discriminate.
  repeat constructor; simpl; tauto.
Defined.

(** A successful completion changes exactly one task document (the one
    completed), no section, no subsection and no other user; the unlock
    records it adds all belong to the requesting user. *)
Theorem completeTask_touches_only_own clk userId id st u t :
  NoDup (map task_id (tasks st)) ->
  findUser userId st = Some u ->
  findTask id userId st = Some t ->
  task_status t = Pending ->
  task_title t <> "" ->
  let st' := fst (completeTask clk (Bearer userId) id st) in
  (exists l1 l2,
     tasks st = l1 ++ t :: l2
     /\ tasks st' = l1 ++ markCompleted (completedNow clk) t :: l2)
  /\ sections st' = sections st
  /\ subsections st' = subsections st
  /\ (forall other, other <> userId -> findUser other st' = findUser other st)
  /\ Forall (fun r => unlock_userId r = userId \/ In r (achievements st))
            (achievements st').
Proof.
  intros ND Hu Ht Hs Hn st'. unfold st'.
  rewrite (completeTask_ok clk userId id st u t Hu Ht Hs Hn). cbn [fst].
  set (t' := markCompleted (completedNow clk) t).
  set (pts := awardPoints (awardNow clk) t').
  set (st0 := awardedStore userId (addPoints pts u) t' st).
  set (new := unlockedBy _ _).
  pose proof (findUser_id _ _ _ Hu) as Hid.
  split; [|split; [|split; [|split]]].
  - rewrite grantAll_tasks. unfold st0, awardedStore. cbn [tasks].
    unfold findTask in Ht. apply find_some in Ht as [Hin _].
    apply (replaceFirst_split task_id t' t (tasks st) ND Hin).
  - now rewrite grantAll_sections.
  - now rewrite grantAll_subsections.
  - intros other Hne. rewrite (grantAll_findUser_other _ _ _ _ _ Hne).
    unfold findUser, st0, awardedStore. cbn [users].
    apply find_replaceFirst_other.
    + simpl. apply N.eqb_neq. congruence.
    + intros x Hx. apply N.eqb_eq in Hx. apply N.eqb_neq. congruence.
  - apply (grantAll_achievements_user (unlockNow clk) userId new st0).
Qed.

Lemma completeTask_touches_only_own_witness :
  NoDup (map task_id (tasks aliceStore))
  /\ findUser 1 aliceStore = Some alice
  /\ findTask 20 1 aliceStore = Some essay
  /\ task_status essay = Pending
  /\ task_title essay <> ""
  /\ let st' := fst (completeTask noon (Bearer 1) 20 aliceStore) in
     (exists l1 l2,
        tasks aliceStore = l1 ++ essay :: l2
        /\ tasks st' = l1 ++ markCompleted (completedNow noon) essay :: l2)
     /\ sections st' = sections aliceStore
     /\ subsections st' = subsections aliceStore
     /\ (forall other, other <> 1%N -> findUser other st' = findUser other aliceStore)
     /\ Forall (fun r => unlock_userId r = 1%N \/ In r (achievements aliceStore))
               (achievements st').
Proof.
  split; [repeat constructor; simpl; tauto|].
  split; [reflexivity|]. split; [reflexivity|]. split; [reflexivity|].
  split; [discriminate|].
  apply (completeTask_touches_only_own noon 1%N 20%N aliceStore alice essay);
    try reflexivity; try discriminate.
  repeat constructor; simpl; tauto.
Defined.

(** What GET /api/stats reports before and after a successful completion:
    one more completed task, the same number of tasks, the same streak, and
    the points raised by [pointsEarned] and by the rewards of the
    achievements unlocked in that request. *)
Theorem stats_after_completion clk userId id st u t :
  NoDup (map task_id (tasks st)) ->
  findUser userId st = Some u ->
  findTask id userId st = Some t ->
  task_status t = Pending ->
  task_title t <> "" ->
  exists before st' done after,
    getStats (Bearer userId) st = (st, Json 200 before)
    /\ completeTask clk (Bearer userId) id st = (st', Json 200 done)
    /\ getStats (Bearer userId) st' = (st', Json 200 after)
    /\ stats_tasksCompleted after = S (stats_tasksCompleted before)
    /\ stats_totalTasks after = stats_totalTasks before
    /\ stats_streak after = stats_streak before
    /\ stats_points after
       = stats_points before + pointsEarned done
         + sumPoints (map unl_ach (newAchievements done)).
Proof.
  intros ND Hu Ht Hs Hn.
  pose proof (completeTask_ok clk userId id st u t Hu Ht Hs Hn) as H. cbv zeta in H.
  set (t' := markCompleted (completedNow clk) t) in *.
  set (pts := awardPoints (awardNow clk) t') in *.
  set (st0 := awardedStore userId (addPoints pts u) t' st) in *.
  set (new := unlockedBy _ _) in *.
  pose proof (awardedStore_findUser userId st u t' pts Hu) as Hu0. fold st0 in Hu0.
  pose proof (grantAll_findUser (unlockNow clk) userId new st0 _ Hu0) as Hu'.
  eexists _, _, _, _.
  split; [apply (getStats_ok userId st u Hu)|].
  split; [exact H|].
  split; [apply (getStats_ok userId _ _ Hu')|].
  cbn [stats_tasksCompleted stats_totalTasks stats_streak stats_points
       pointsEarned newAchievements user_points user_streak addPoints].
  rewrite stamp_unl_ach, grantAll_tasks.
  destruct (findTask_id _ _ _ _ Ht) as [Hi Ho].
  unfold findTask in Ht. apply find_some in Ht as [Hin _].
  destruct (replaceFirst_split task_id t' t (tasks st) ND Hin) as (l1 & l2 & E1 & E2).
  unfold st0, awardedStore. cbn [tasks].
  change (fun x : TaskDoc => N.eqb (task_id x) (task_id t'))
    with (fun x : TaskDoc => N.eqb (task_id x) (task_id t)).
  rewrite E2, E1, !countDocuments_split.
  unfold completedOf, ownTask, t'. cbn [task_userId task_status markCompleted].
  rewrite Hs, Ho, N.eqb_refl. cbn [Status_eqb andb].
  repeat split; lia.
Qed.

Lemma stats_after_completion_witness :
  NoDup (map task_id (tasks aliceStore))
  /\ findUser 1 aliceStore = Some alice
  /\ findTask 20 1 aliceStore = Some essay
  /\ task_status essay = Pending
  /\ task_title essay <> ""
  /\ exists before st' done after,
       getStats (Bearer 1) aliceStore = (aliceStore, Json 200 before)
       /\ completeTask noon (Bearer 1) 20 aliceStore = (st', Json 200 done)
       /\ getStats (Bearer 1) st' = (st', Json 200 after)
       /\ stats_tasksCompleted after = S (stats_tasksCompleted before)
       /\ stats_totalTasks after = stats_totalTasks before
       /\ stats_streak after = stats_streak before
       /\ stats_points after
          = stats_points before + pointsEarned done
            + sumPoints (map unl_ach (newAchievements done)).
Proof.
  split; [repeat constructor; simpl; tauto|].
  split; [reflexivity|]. split; [reflexivity|]. split; [reflexivity|].
  split; [discriminate|].
  apply (stats_after_completion noon 1%N 20%N aliceStore alice essay);
    try reflexivity; try discriminate.
  repeat constructor; simpl; tauto.
Defined.

(** GET /api/stats and GET /api/auth/me read the store without writing,
    report the same four numbers, and never report more completed tasks
    than tasks. *)
Theorem stats_and_me_agree userId st u :
  findUser userId st = Some u ->
  exists s m,
    getStats (Bearer userId) st = (st, Json 200 s)
    /\ getMe (Bearer userId) st = (st, Json 200 m)
    /\ (stats_tasksCompleted s <= stats_totalTasks s)%nat
    /\ me_points m = stats_points s /\ me_streak m = stats_streak s
    /\ me_tasksCompleted m = stats_tasksCompleted s
    /\ me_totalTasks m = stats_totalTasks s
    /\ stats_points s = user_points u /\ me_id m = userId.
Proof.
  intros Hu. pose proof (findUser_id _ _ _ Hu) as Hid.
  eexists _, _. split; [apply (getStats_ok userId st u Hu)|].
  split.
  - unfold getMe, authMiddleware. unfold findUser in Hu. rewrite Hu. reflexivity.
  - cbn. rewrite Hid. repeat split.
    apply countDocuments_le. intros x Hx. unfold completedOf in Hx.
    apply andb_prop in Hx as [Hx _]. exact Hx.
Qed.

Lemma stats_and_me_agree_witness :
  findUser 3 carolStore = Some carol
  /\ exists s m,
       getStats (Bearer 3) carolStore = (carolStore, Json 200 s)
       /\ getMe (Bearer 3) carolStore = (carolStore, Json 200 m)
       /\ (stats_tasksCompleted s <= stats_totalTasks s)%nat
       /\ me_points m = stats_points s /\ me_streak m = stats_streak s
       /\ me_tasksCompleted m = stats_tasksCompleted s
       /\ me_totalTasks m = stats_totalTasks s
       /\ stats_points s = user_points carol /\ me_id m = 3%N.
Proof.
  split; [reflexivity|].
  apply (stats_and_me_agree 3%N carolStore carol). reflexivity.
Defined.

(** * Further properties of [checkAchievements] *)

Lemma isUnlocked_false_notin userId id st :
  isUnlocked userId id st = false ->
  ~ In (userId, id) (map unlockKey (achievements st)).
Proof.
  unfold isUnlocked. intros H Hin.
  destruct (find _ (achievements st)) eqn:E; [discriminate|].
  apply in_map_iff in Hin as (r & Hk & Hr).
  pose proof (find_none _ _ E r Hr) as Hf. cbv beta in Hf.
  unfold unlockKey in Hk. injection Hk as Hu Hi.
  now rewrite Hu, Hi, N.eqb_refl, String.eqb_refl in Hf.
Qed.

Lemma pick_ids_NoDup b1 b2 b3 b4 b5 b6 :
  NoDup (map ach_id (pick b1 b2 b3 b4 b5 b6)).
Proof.
  destruct b1, b2, b3, b4, b5, b6; cbn;
    repeat (apply NoDup_cons; [simpl; intuition discriminate|]); apply NoDup_nil.
Qed.

(** At most one unlock record per user and achievement: a store that has
    this property keeps it through [checkAchievements]. *)
Theorem checkAchievements_keeps_unlocks_unique now userId st u :
  findUser userId st = Some u ->
  NoDup (map unlockKey (achievements st)) ->
  NoDup (map unlockKey (achievements (fst (checkAchievements now userId st)))).
Proof.
  intros Hu ND.
  rewrite (checkAchievements_closed now userId st u Hu). cbn [fst].
  set (new := unlockedBy (lockedIn userId st) (viewOf userId u st)).
  rewrite (grantAll_keys now userId new st u Hu).
  apply NoDup_app; [exact ND | |].
  - rewrite <- (map_map ach_id (fun i => (userId, i))).
    apply Injective_map_NoDup; [intros a b E; now injection E|].
    unfold new, unlockedBy. apply pick_ids_NoDup.
  - intros k Hk Hnew. apply in_map_iff in Hnew as (a & <- & Ha).
    apply unlockedBy_locked in Ha. unfold lockedIn in Ha.
    apply negb_true_iff in Ha.
    now apply (isUnlocked_false_notin userId (ach_id a) st Ha).
Qed.

Lemma checkAchievements_keeps_unlocks_unique_witness :
  findUser 3 carolStore = Some carol
  /\ NoDup (map unlockKey (achievements carolStore))
  /\ NoDup (map unlockKey (achievements (fst (checkAchievements 0 3 carolStore)))).
Proof.
  assert (ND : NoDup (map unlockKey (achievements carolStore)))
    by (repeat constructor; simpl; tauto).
  split; [reflexivity|]. split; [exact ND|].
  apply (checkAchievements_keeps_unlocks_unique 0 3%N carolStore carol);
    [reflexivity | exact ND].
Defined.

(** Two passes in closed form, with the store and user between them. *)
Lemma checkAchievements_two_closed now1 now2 userId st u :
  findUser userId st = Some u ->
  let new1 := unlockedBy (lockedIn userId st) (viewOf userId u st) in
  let st1 := grantAll now1 userId new1 st in
  let u1 := addPoints (sumPoints new1) u in
  let new2 := unlockedBy (lockedIn userId st1) (viewOf userId u1 st1) in
  findUser userId st1 = Some u1
  /\ checkAchievements now1 userId st = (st1, Ok (stamp now1 new1))
  /\ checkAchievements now2 userId st1
     = (grantAll now2 userId new2 st1, Ok (stamp now2 new2))
  /\ (new2 = [] \/ new2 = [points_1000])
  /\ (new2 <> [] -> hasId "tasks_10" new1 = true).
Proof.
  intros Hu new1 st1 u1 new2.
  pose proof (grantAll_findUser now1 userId new1 st u Hu) as Hu1.
  fold st1 u1 in Hu1.
  split; [exact Hu1|].
  split; [apply (checkAchievements_closed now1 userId st u Hu)|].
  split; [apply (checkAchievements_closed now2 userId st1 u1 Hu1)|].
  assert (HL : new2 = unlockedBy (fun id => lockedIn userId st id && negb (hasId id new1))
                        (plusPoints (sumPoints new1) (viewOf userId u st))).
  { unfold new2, u1, st1. rewrite grantAll_view.
    unfold unlockedBy, lockedIn.
    rewrite !(grantAll_isUnlocked now1 userId new1 _ st u Hu).
    now rewrite !negb_orb. }
  destruct (second_pass (lockedIn userId st) (viewOf userId u st)) as [Hshape Hwhen].
  fold new1 in Hshape, Hwhen. rewrite <- HL in Hshape, Hwhen.
  split; [exact Hshape|]. intros Hne. now apply Hwhen.
Qed.

(** Three passes in a row with nothing changed in between: whatever the
    first two unlock, the third unlocks nothing. *)
Theorem checkAchievements_settles now1 now2 now3 userId st u :
  findUser userId st = Some u ->
  let st1 := fst (checkAchievements now1 userId st) in
  let st2 := fst (checkAchievements now2 userId st1) in
  checkAchievements now3 userId st2 = (st2, Ok []).
Proof.
  intros Hu st1 st2. unfold st2, st1.
  destruct (checkAchievements_two_closed now1 now2 userId st u Hu)
    as (Hu1 & E1 & E2 & Hshape & _).
  rewrite E1. cbn [fst]. rewrite E2. cbn [fst].
  destruct (checkAchievements_two_closed now2 now3 userId _ _ Hu1)
    as (_ & _ & E3 & Hshape3 & Hwhen3).
  rewrite E3.
  set (new2 := unlockedBy (lockedIn userId (grantAll now1 userId _ st)) _) in *.
  set (new3 := unlockedBy (lockedIn userId (grantAll now2 userId new2 _)) _) in *.
  assert (H3 : new3 = []).
  { destruct Hshape3 as [H|H]; [exact H|]. exfalso.
    assert (Hne : new3 <> []) by (rewrite H; discriminate).
    specialize (Hwhen3 Hne).
    destruct Hshape as [E|E]; rewrite E in Hwhen3; vm_compute in Hwhen3; discriminate. }
  rewrite H3. reflexivity.
Qed.

Lemma checkAchievements_settles_witness :
  findUser 3 carolStore = Some carol
  /\ let st1 := fst (checkAchievements 0 3 carolStore) in
     let st2 := fst (checkAchievements 1 3 st1) in
     checkAchievements 2 3 st2 = (st2, Ok []).
Proof.
  split; [reflexivity|].
  apply (checkAchievements_settles 0 1 2 3%N carolStore carol). reflexivity.
Defined.

(** * The achievements listing *)

Lemma listed_ids userId id (l : list AchievementDoc) :
  existsb (fun i => String.eqb i id)
          (map unlock_achievementId
               (filter (fun a => N.eqb (unlock_userId a) userId) l))
  = isSome (find (fun a => N.eqb (unlock_userId a) userId
                           && String.eqb (unlock_achievementId a) id) l).
Proof.
  induction l as [|r l IH]; simpl; [reflexivity|].
  destruct (N.eqb (unlock_userId r) userId); simpl; [|exact IH].
  destruct (String.eqb (unlock_achievementId r) id); simpl; [reflexivity | exact IH].
Qed.

Lemma listed_record userId id (l : list AchievementDoc) :
  find (fun u => String.eqb (unlock_achievementId u) id)
       (filter (fun a => N.eqb (unlock_userId a) userId) l)
  = find (fun a => N.eqb (unlock_userId a) userId
                   && String.eqb (unlock_achievementId a) id) l.
Proof.
  induction l as [|r l IH]; simpl; [reflexivity|].
  destruct (N.eqb (unlock_userId r) userId); simpl; [|exact IH].
  destruct (String.eqb (unlock_achievementId r) id); simpl; [reflexivity | exact IH].
Qed.

Lemma getAchievements_ok userId st u :
  findUser userId st = Some u ->
  getAchievements (Bearer userId) st
  = (st, Json 200
       (map (fun a =>
               mkAchievementInfo (ach_id a) (ach_title a) (ach_desc a) (ach_icon a)
                 (ach_points a) (isUnlocked userId (ach_id a) st)
                 (option_map unlock_unlockedAt
                    (find (fun r => N.eqb (unlock_userId r) userId
                                    && String.eqb (unlock_achievementId r) (ach_id a))
                          (achievements st))))
            ACHIEVEMENTS)).
Proof.
  intros Hu. pose proof (findUser_id _ _ _ Hu) as Hid.
  unfold getAchievements, authMiddleware. unfold findUser in Hu. rewrite Hu.
  run_route. rewrite Hid. f_equal. f_equal.
  apply map_ext. intros a. unfold isUnlocked.
  now rewrite listed_ids, listed_record.
Qed.

(** After a successful completion GET /api/achievements lists the six
    entries in table order and flags exactly those that were unlocked
    before the request or are returned in its [newAchievements]; an entry
    carries an [unlockedAt] exactly when it is flagged. *)
Theorem achievements_listed_after_completion clk userId id st u t :
  findUser userId st = Some u ->
  findTask id userId st = Some t ->
  task_status t = Pending ->
  task_title t <> "" ->
  exists st' done infos,
    completeTask clk (Bearer userId) id st = (st', Json 200 done)
    /\ getAchievements (Bearer userId) st' = (st', Json 200 infos)
    /\ map (fun i => (info_id i, info_unlocked i)) infos
       = map (fun a =>
                (ach_id a,
                 isUnlocked userId (ach_id a) st
                 || hasId (ach_id a) (map unl_ach (newAchievements done))))
             ACHIEVEMENTS
    /\ Forall (fun i => info_unlocked i = isSome (info_unlockedAt i)) infos.
Proof.
  intros Hu Ht Hs Hn.
  pose proof (completeTask_ok clk userId id st u t Hu Ht Hs Hn) as H. cbv zeta in H.
  set (t' := markCompleted (completedNow clk) t) in *.
  set (pts := awardPoints (awardNow clk) t') in *.
  set (st0 := awardedStore userId (addPoints pts u) t' st) in *.
  set (new := unlockedBy _ _) in *.
  pose proof (awardedStore_findUser userId st u t' pts Hu) as Hu0. fold st0 in Hu0.
  pose proof (grantAll_findUser (unlockNow clk) userId new st0 _ Hu0) as Hu'.
  eexists _, _, _. split; [exact H|].
  split; [apply (getAchievements_ok userId _ _ Hu')|].
  cbn [newAchievements]. rewrite stamp_unl_ach. split.
  - rewrite map_map. apply map_ext. intros a. cbn [info_id info_unlocked].
    now rewrite (grantAll_isUnlocked (unlockNow clk) userId new (ach_id a) st0 _ Hu0).
  - apply Forall_forall. intros i Hi. apply in_map_iff in Hi as (a & <- & _).
    cbn [info_unlocked info_unlockedAt]. unfold isUnlocked.
    now destruct (find _ _).
Qed.

Lemma achievements_listed_after_completion_witness :
  findUser 1 aliceStore = Some alice
  /\ findTask 20 1 aliceStore = Some essay
  /\ task_status essay = Pending
  /\ task_title essay <> ""
  /\ exists st' done infos,
       completeTask noon (Bearer 1) 20 aliceStore = (st', Json 200 done)
       /\ getAchievements (Bearer 1) st' = (st', Json 200 infos)
       /\ map (fun i => (info_id i, info_unlocked i)) infos
          = map (fun a =>
                   (ach_id a,
                    isUnlocked 1 (ach_id a) aliceStore
                    || hasId (ach_id a) (map unl_ach (newAchievements done))))
                ACHIEVEMENTS
       /\ Forall (fun i => info_unlocked i = isSome (info_unlockedAt i)) infos.
Proof.
  split; [reflexivity|]. split; [reflexivity|]. split; [reflexivity|].
  split; [discriminate|].
  apply (achievements_listed_after_completion noon 1%N 20%N aliceStore alice essay);
    try reflexivity; discriminate.
Defined.

Example achievements_after_essay :
  match snd (getAchievements (Bearer 1) (fst (completeTask noon (Bearer 1) 20 aliceStore))) with
  | Json 200 infos =>
      map (fun i => (info_id i, info_unlocked i)) infos
      = [("first_task", true); ("streak_7", false); ("tasks_100", false);
         ("early_10", false); ("points_1000", true); ("tasks_10", false)]
  | _ => False
  end.
Proof. vm_compute. reflexivity. Qed.

(** * Updating and creating tasks *)








Lemma find_app_fresh {A} (q : A -> bool) (l : list A) (x : A) :
  (forall y, In y l -> q y = false) ->
  q x = true ->
  find q (l ++ [x]) = Some x.
Proof.
  intros Hl Hx. rewrite find_app_last.
  destruct (find q l) as [y|] eqn:E.
  - apply find_some in E as [Hin Hy]. rewrite (Hl y Hin) in Hy. discriminate.
  - now rewrite Hx.
Qed.



(** A target date sent as the number 0 is replaced by the time of
    creation; any other number is kept. *)
Example createTask_falsy_target_date :
  option_map task_targetDate
    (find (fun t => N.eqb (task_id t) 100)
          (tasks (fst (createTask 7000 (Bearer 1) epochNote aliceStore))))
  = Some (Some 7000)
  /\ option_map task_targetDate
       (find (fun t => N.eqb (task_id t) 100)
             (tasks (fst (createTask 7000 (Bearer 1) quickNote aliceStore))))
     = Some (Some 7000)
  /\ givenOrNow (Some 86400000) 7000 = 86400000.
Proof. vm_compute. repeat split; reflexivity. Qed.

(** * Deleting *)

Lemma In_deleteMany {A} (p : A -> bool) (l : list A) (x : A) :
  In x (deleteMany p l) <-> In x l /\ p x = false.
Proof.
  unfold deleteMany. rewrite filter_In. now rewrite negb_true_iff.
Qed.

Lemma removeFirst_incl {A} (p : A -> bool) (l : list A) (x : A) :
  In x (removeFirst p l) -> In x l.
Proof.
  induction l as [|y r IH]; simpl; [tauto|].
  destruct (p y); simpl; [now right|]. intros [H|H]; [now left | right; now apply IH].
Qed.

Lemma removeFirst_keeps {A} (p : A -> bool) (l : list A) (x : A) :
  In x l -> p x = false -> In x (removeFirst p l).
Proof.
  intros Hin Hp. induction l as [|y r IH]; simpl in *; [tauto|].
  destruct Hin as [->|Hin].
  - rewrite Hp. now left.
  - destruct (p y); [exact Hin | right; now apply IH].
Qed.

(** With unique keys, and a filter that fixes the key, removing the first
    match removes every match. *)
Lemma removeFirst_all {A} (key : A -> N) (k : N) (p : A -> bool) (l : list A) (x : A) :
  NoDup (map key l) ->
  (forall y, p y = true -> key y = k) ->
  In x (removeFirst p l) -> p x = false.
Proof.
  intros ND Hk. induction l as [|y r IH]; simpl; [tauto|].
  inversion ND as [|a b Hnot ND']; subst.
  destruct (p y) eqn:E.
  - intros Hin. destruct (p x) eqn:Ex; [|reflexivity]. exfalso. apply Hnot.
    rewrite (Hk y E), <- (Hk x Ex). now apply in_map.
  - intros [<-|Hin]; [exact E | now apply IH].
Qed.

Lemma deleteSection_ok userId id st u :
  findUser userId st = Some u ->
  deleteSection (Bearer userId) id st
  = (mkStore (users st)
             (removeFirst (fun s => N.eqb (sec_id s) id && N.eqb (sec_userId s) userId)
                          (sections st))
             (deleteMany (fun s => N.eqb (sub_sectionId s) id) (subsections st))
             (deleteMany (fun t => N.eqb (task_sectionId t) id) (tasks st))
             (achievements st) (nextId st),
     Json 200 "Section deleted").
Proof.
  intros Hu. pose proof (findUser_id _ _ _ Hu) as Hid.
  unfold deleteSection, authMiddleware. unfold findUser in Hu. rewrite Hu.
  run_route. now rewrite Hid.
Qed.

(** DELETE /api/sections/:id cascades: afterwards the tasks and the
    subsections left are exactly those that did not refer to the section,
    the requesting user has no section with that id, every other section
    is still there, and users and unlock records are untouched. *)
Theorem deleteSection_cascades userId id st u :
  findUser userId st = Some u ->
  NoDup (map sec_id (sections st)) ->
  let st' := fst (deleteSection (Bearer userId) id st) in
  (forall t, In t (tasks st') <-> In t (tasks st) /\ task_sectionId t <> id)
  /\ (forall s, In s (subsections st') <->
                In s (subsections st) /\ sub_sectionId s <> id)
  /\ (forall s, In s (sections st') <->
                In s (sections st) /\ ~ (sec_id s = id /\ sec_userId s = userId))
  /\ users st' = users st
  /\ achievements st' = achievements st.
Proof.
  intros Hu ND st'. unfold st'. rewrite (deleteSection_ok userId id st u Hu).
  cbn [fst tasks subsections sections users achievements].
  split; [|split; [|split; [|split; reflexivity]]].
  - intros t. rewrite In_deleteMany. now rewrite N.eqb_neq.
  - intros s. rewrite In_deleteMany. now rewrite N.eqb_neq.
  - intros s. set (p := fun s => N.eqb (sec_id s) id && N.eqb (sec_userId s) userId).
    assert (Hp : forall y, p y = false <-> ~ (sec_id y = id /\ sec_userId y = userId)).
    { intros y. unfold p. rewrite andb_false_iff, !N.eqb_neq. split; [tauto|].
      intros H. destruct (N.eq_dec (sec_id y) id); [right|left]; tauto. }
    split.
    + intros Hin. split; [now apply (removeFirst_incl p)|]. apply Hp.
      apply (removeFirst_all sec_id id p (sections st) s ND); [|exact Hin].
      intros y Hy. unfold p in Hy. apply andb_prop in Hy as [Hy _].
      now apply N.eqb_eq.
    + intros [Hin Hn]. apply removeFirst_keeps; [exact Hin | now apply Hp].
Qed.

Lemma deleteSection_cascades_witness :
  findUser 2 bobStore = Some bob
  /\ NoDup (map sec_id (sections bobStore))
  /\ let st' := fst (deleteSection (Bearer 2) 40 bobStore) in
     (forall t, In t (tasks st') <-> In t (tasks bobStore) /\ task_sectionId t <> 40%N)
     /\ (forall s, In s (subsections st') <->
                   In s (subsections bobStore) /\ sub_sectionId s <> 40%N)
     /\ (forall s, In s (sections st') <->
                   In s (sections bobStore) /\ ~ (sec_id s = 40%N /\ sec_userId s = 2%N))
     /\ users st' = users bobStore
     /\ achievements st' = achievements bobStore.
Proof.
  assert (ND : NoDup (map sec_id (sections bobStore)))
    by (repeat constructor; simpl; tauto).
  split; [reflexivity|]. split; [exact ND|].
  apply (deleteSection_cascades 2%N 40%N bobStore bob); [reflexivity | exact ND].
Defined.

(** DELETE /api/subsections/:id removes every task of the subsection and
    keeps every other task; sections, users and unlock records are
    untouched, and the requesting user has no subsection with that id
    left. *)
Theorem deleteSubsection_cascades userId id st u :
  findUser userId st = Some u ->
  NoDup (map sub_id (subsections st)) ->
  let st' := fst (deleteSubsection (Bearer userId) id st) in
  (forall t, In t (tasks st') <-> In t (tasks st) /\ task_subsectionId t <> Some id)
  /\ (forall s, In s (subsections st') <->
                In s (subsections st) /\ ~ (sub_id s = id /\ sub_userId s = userId))
  /\ sections st' = sections st
  /\ users st' = users st
  /\ achievements st' = achievements st.
Proof.
  intros Hu ND st'. unfold st'. pose proof (findUser_id _ _ _ Hu) as Hid.
  unfold deleteSubsection, authMiddleware. unfold findUser in Hu. rewrite Hu.
  run_route. rewrite Hid.
  cbn [fst tasks subsections sections users achievements withTasks withSubsections].
  split; [|split; [|repeat split]].
  - intros t. rewrite In_deleteMany. unfold optId_eqb.
    destruct (task_subsectionId t) as [x|].
    + rewrite N.eqb_neq. split; intros [H1 H2]; (split; [exact H1|]); congruence.
    + split; intros [H1 H2]; (split; [exact H1|]); congruence.
  - intros s. set (p := fun s => N.eqb (sub_id s) id && N.eqb (sub_userId s) userId).
    assert (Hp : forall y, p y = false <-> ~ (sub_id y = id /\ sub_userId y = userId)).
    { intros y. unfold p. rewrite andb_false_iff, !N.eqb_neq. split; [tauto|].
      intros H. destruct (N.eq_dec (sub_id y) id); [right|left]; tauto. }
    split.
    + intros Hin. split; [now apply (removeFirst_incl p)|]. apply Hp.
      apply (removeFirst_all sub_id id p (subsections st) s ND); [|exact Hin].
      intros y Hy. unfold p in Hy. apply andb_prop in Hy as [Hy _].
      now apply N.eqb_eq.
    + intros [Hin Hn]. apply removeFirst_keeps; [exact Hin | now apply Hp].
Qed.

Lemma deleteSubsection_cascades_witness :
  findUser 2 bobStore = Some bob
  /\ NoDup (map sub_id (subsections bobStore))
  /\ let st' := fst (deleteSubsection (Bearer 2) 41 bobStore) in
     (forall t, In t (tasks st') <->
                In t (tasks bobStore) /\ task_subsectionId t <> Some 41%N)
     /\ (forall s, In s (subsections st') <->
                   In s (subsections bobStore)
                   /\ ~ (sub_id s = 41%N /\ sub_userId s = 2%N))
     /\ sections st' = sections bobStore
     /\ users st' = users bobStore
     /\ achievements st' = achievements bobStore.
Proof.
  assert (ND : NoDup (map sub_id (subsections bobStore)))
    by (repeat constructor; simpl; tauto).
  split; [reflexivity|]. split; [exact ND|].
  apply (deleteSubsection_cascades 2%N 41%N bobStore bob); [reflexivity | exact ND].
Defined.

(** DELETE /api/tasks/:id removes the requesting user's task with that id
    and nothing else: afterwards it cannot be found, and the tasks left are
    exactly the others.  The answer is 200 whether or not a task was
    deleted. *)
Theorem deleteTask_removes_own_task userId id st u :
  findUser userId st = Some u ->
  NoDup (map task_id (tasks st)) ->
  let st' := fst (deleteTask (Bearer userId) id st) in
  snd (deleteTask (Bearer userId) id st) = Json 200 "Task deleted"
  /\ findTask id userId st' = None
  /\ (forall t, In t (tasks st') <->
                In t (tasks st) /\ ~ (task_id t = id /\ task_userId t = userId))
  /\ users st' = users st /\ sections st' = sections st
  /\ subsections st' = subsections st /\ achievements st' = achievements st.
Proof.
  intros Hu ND st'. unfold st'. pose proof (findUser_id _ _ _ Hu) as Hid.
  unfold deleteTask, authMiddleware. unfold findUser in Hu. rewrite Hu.
  run_route. rewrite Hid.
  cbn [fst snd tasks subsections sections users achievements withTasks].
  set (p := fun t => N.eqb (task_id t) id && N.eqb (task_userId t) userId).
  assert (Hp : forall y, p y = false <-> ~ (task_id y = id /\ task_userId y = userId)).
  { intros y. unfold p. rewrite andb_false_iff, !N.eqb_neq. split; [tauto|].
    intros H. destruct (N.eq_dec (task_id y) id); [right|left]; tauto. }
  assert (Hall : forall x, In x (removeFirst p (tasks st)) -> p x = false).
  { intros x. apply (removeFirst_all task_id id p (tasks st) x ND).
    intros y Hy. unfold p in Hy. apply andb_prop in Hy as [Hy _]. now apply N.eqb_eq. }
  split; [reflexivity|]. split; [|split; [|repeat split]].
  - unfold findTask. cbn [tasks withTasks]. fold p.
    destruct (find p (removeFirst p (tasks st))) as [x|] eqn:E; [|reflexivity].
    apply find_some in E as [Hin Hx]. rewrite (Hall x Hin) in Hx. discriminate.
  - intros t. split.
    + intros Hin. split; [now apply (removeFirst_incl p) | now apply Hp, Hall].
    + intros [Hin Hn]. apply removeFirst_keeps; [exact Hin | now apply Hp].
Qed.

Lemma deleteTask_removes_own_task_witness :
  findUser 2 bobStore = Some bob
  /\ NoDup (map task_id (tasks bobStore))
  /\ let st' := fst (deleteTask (Bearer 2) 42 bobStore) in
     snd (deleteTask (Bearer 2) 42 bobStore) = Json 200 "Task deleted"
     /\ findTask 42 2 st' = None
     /\ (forall t, In t (tasks st') <->
                   In t (tasks bobStore) /\ ~ (task_id t = 42%N /\ task_userId t = 2%N))
     /\ users st' = users bobStore /\ sections st' = sections bobStore
     /\ subsections st' = subsections bobStore /\ achievements st' = achievements bobStore.
Proof.
  assert (ND : NoDup (map task_id (tasks bobStore))).
  { repeat constructor; simpl; intuition discriminate. }
  split; [reflexivity|]. split; [exact ND|].
  apply (deleteTask_removes_own_task 2%N 42%N bobStore bob); [reflexivity | exact ND].
Defined.

(** * Signing up and logging in *)

Lemma find_None_existsb {A} (p : A -> bool) (l : list A) :
  find p l = None -> existsb p l = false.
Proof.
  induction l as [|x r IH]; simpl; [reflexivity|].
  destruct (p x); [discriminate | exact IH].
Qed.

Lemma signup_ok (bcrypt_hash : string -> string) (toLowerCase : string -> string)
    now name email password st :
  (forall s, toLowerCase (toLowerCase s) = toLowerCase s) ->
  find (fun x => String.eqb (user_email x) (toLowerCase email)) (users st) = None ->
  name <> "" -> toLowerCase email <> "" -> bcrypt_hash password <> "" ->
  let user := mkUser (nextId st) name (toLowerCase email) (bcrypt_hash password)
                     0 0 now now in
  signup bcrypt_hash toLowerCase now name email password st
  = (bumpId (withUsers (users st ++ [user]) st),
     Json 201 (mkSignupBody (nextId st) (nextId st) name (toLowerCase email) 0 0)).
Proof.
  intros Hidem Hnew Hn He Hh user.
  apply String.eqb_neq in Hn, He, Hh.
  unfold signup, tryCatch. unfold bind at 1. unfold User_findOneByEmail, gets.
  rewrite Hnew. cbn [isSome]. unfold bind at 1. unfold bind at 1.
  unfold User_create. cbn [user_name user_email user_password].
  rewrite Hidem, Hn, He, Hh. cbn [orb].
  now rewrite (find_None_existsb _ _ Hnew).
Qed.

Lemma login_ok (bcrypt_compare : string -> string -> bool)
    (toLowerCase : string -> string) (setHoursZero : Date -> Date)
    todayNow activeNow email password st u :
  find (fun x => String.eqb (user_email x) (toLowerCase email)) (users st) = Some u ->
  bcrypt_compare password (user_password u) = true ->
  let u1 := setLastActiveDate activeNow (updateStreak setHoursZero todayNow u) in
  login bcrypt_compare toLowerCase setHoursZero todayNow activeNow email password st
  = (withUsers (replaceFirst (fun x => N.eqb (user_id x) (user_id u)) u1 (users st)) st,
     Json 200 (mkLoginBody (user_id u) (user_id u) (user_name u1) (user_email u1)
                           (user_points u1) (user_streak u1))).
Proof.
  intros Hf Hpw u1.
  assert (Hid : user_id u1 = user_id u) by apply updateStreak_id.
  unfold login, tryCatch. unfold bind at 1. unfold User_findOneByEmail, gets.
  rewrite Hf, Hpw. cbn [negb]. unfold bind, User_save, modify. fold u1.
  now rewrite Hid.
Qed.

Lemma updateStreak_same_day h todayNow u :
  h todayNow = h (user_lastActiveDate u) -> updateStreak h todayNow u = u.
Proof.
  intros H. unfold updateStreak, dayDiffOf. rewrite H, Z.sub_diag. reflexivity.
Qed.

Lemma updateStreak_fields h todayNow u :
  user_email (updateStreak h todayNow u) = user_email u
  /\ user_points (updateStreak h todayNow u) = user_points u
  /\ user_password (updateStreak h todayNow u) = user_password u.
Proof.
  unfold updateStreak. destruct (Qeq_bool _ 1); [now repeat split|].
  destruct (negb _); now repeat split.
Qed.

(** Signing up and then logging in with the same credentials on the same
    local day succeeds and reports the new user with 0 points and streak
    0: the first login does not start a streak. *)
Theorem signup_then_login
    (bcrypt_hash : string -> string) (bcrypt_compare : string -> string -> bool)
    (toLowerCase : string -> string) (setHoursZero : Date -> Date)
    signupNow loginNow activeNow name email password st :
  (forall s, toLowerCase (toLowerCase s) = toLowerCase s) ->
  bcrypt_compare password (bcrypt_hash password) = true ->
  find (fun x => String.eqb (user_email x) (toLowerCase email)) (users st) = None ->
  name <> "" -> toLowerCase email <> "" -> bcrypt_hash password <> "" ->
  setHoursZero loginNow = setHoursZero signupNow ->
  exists st1 created st2 logged,
    signup bcrypt_hash toLowerCase signupNow name email password st
    = (st1, Json 201 created)
    /\ signup_points created = 0 /\ signup_streak created = 0
    /\ login bcrypt_compare toLowerCase setHoursZero loginNow activeNow email password st1
       = (st2, Json 200 logged)
    /\ login_id logged = signup_id created
    /\ login_email logged = toLowerCase email
    /\ login_points logged = 0 /\ login_streak logged = 0.
Proof.
  intros Hidem Hcmp Hnew Hn He Hh Hday.
  set (user := mkUser (nextId st) name (toLowerCase email) (bcrypt_hash password)
                      0 0 signupNow signupNow).
  assert (Hf : find (fun x => String.eqb (user_email x) (toLowerCase email))
                    (users (bumpId (withUsers (users st ++ [user]) st))) = Some user).
  { cbn [users bumpId withUsers]. apply find_app_fresh.
    - apply (find_none _ _ Hnew).
    - cbn [user_email user]. apply String.eqb_refl. }
  eexists _, _, _, _.
  split; [apply (signup_ok bcrypt_hash toLowerCase signupNow name email password st
                   Hidem Hnew Hn He Hh)|].
  split; [reflexivity|]. split; [reflexivity|].
  split; [apply (login_ok bcrypt_compare toLowerCase setHoursZero loginNow activeNow
                   email password _ user Hf Hcmp)|].
  rewrite (updateStreak_same_day setHoursZero loginNow user Hday).
  repeat split.
Qed.

Lemma signup_then_login_witness :
  (forall s : string, (fun x : string => x) ((fun x : string => x) s) = (fun x : string => x) s)
  /\ toyCompare "secret" (toyHash "secret") = true
  /\ find (fun x => String.eqb (user_email x) "dave@example.com") (users aliceStore) = None
  /\ "Dave" <> "" /\ "dave@example.com" <> "" /\ toyHash "secret" <> ""
  /\ utcMidnight (hour * 30) = utcMidnight (hour * 25)
  /\ exists st1 created st2 logged,
       signup toyHash (fun x => x) (hour * 25) "Dave" "dave@example.com" "secret" aliceStore
       = (st1, Json 201 created)
       /\ signup_points created = 0 /\ signup_streak created = 0
       /\ login toyCompare (fun x => x) utcMidnight (hour * 30) (hour * 30)
                "dave@example.com" "secret" st1
          = (st2, Json 200 logged)
       /\ login_id logged = signup_id created
       /\ login_email logged = "dave@example.com"
       /\ login_points logged = 0 /\ login_streak logged = 0.
Proof.
  split; [reflexivity|]. split; [reflexivity|]. split; [reflexivity|].
  split; [discriminate|]. split; [discriminate|]. split; [discriminate|].
  split; [reflexivity|].
  apply (signup_then_login toyHash toyCompare (fun x => x) utcMidnight
           (hour * 25) (hour * 30) (hour * 30) "Dave" "dave@example.com" "secret"
           aliceStore); try reflexivity; discriminate.
Defined.

(** After a successful signup the address is taken: a second signup whose
    email lowers to the same string, under any name and password, answers
    400 "Email already exists" and writes nothing. *)
Theorem signup_twice_rejected
    (bcrypt_hash : string -> string) (toLowerCase : string -> string)
    now now' name email password name' email' password' st :
  (forall s, toLowerCase (toLowerCase s) = toLowerCase s) ->
  find (fun x => String.eqb (user_email x) (toLowerCase email)) (users st) = None ->
  name <> "" -> toLowerCase email <> "" -> bcrypt_hash password <> "" ->
  toLowerCase email' = toLowerCase email ->
  let st1 := fst (signup bcrypt_hash toLowerCase now name email password st) in
  signup bcrypt_hash toLowerCase now' name' email' password' st1
  = (st1, Error 400 "Email already exists").
Proof.
  intros Hidem Hnew Hn He Hh Hsame st1. unfold st1.
  rewrite (signup_ok bcrypt_hash toLowerCase now name email password st
             Hidem Hnew Hn He Hh). cbn [fst].
  unfold signup, tryCatch. unfold bind at 1. unfold User_findOneByEmail, gets.
  cbn [users bumpId withUsers]. rewrite Hsame.
  rewrite find_app_fresh; [reflexivity | apply (find_none _ _ Hnew) |].
  cbn [user_email]. apply String.eqb_refl.
Qed.

Lemma signup_twice_rejected_witness :
  (forall s : string, (fun x : string => x) ((fun x : string => x) s) = (fun x : string => x) s)
  /\ find (fun x => String.eqb (user_email x) "dave@example.com") (users aliceStore) = None
  /\ "Dave" <> "" /\ "dave@example.com" <> "" /\ toyHash "secret" <> ""
  /\ "dave@example.com" = "dave@example.com"
  /\ let st1 := fst (signup toyHash (fun x => x) 5 "Dave" "dave@example.com" "secret"
                            aliceStore) in
     signup toyHash (fun x => x) 9 "David" "dave@example.com" "other" st1
     = (st1, Error 400 "Email already exists").
Proof.
  split; [reflexivity|]. split; [reflexivity|].
  split; [discriminate|]. split; [discriminate|]. split; [discriminate|].
  split; [reflexivity|].
  apply (signup_twice_rejected toyHash (fun x => x) 5 9 "Dave" "dave@example.com"
           "secret" "David" "dave@example.com" "other" aliceStore);
    try reflexivity; discriminate.
Defined.

(** A login with an unknown email or with a password that does not match
    answers 400 with the same message in both cases and writes nothing:
    neither the streak nor [lastActiveDate] moves. *)
Theorem login_rejects_bad_credentials
    (bcrypt_compare : string -> string -> bool) (toLowerCase : string -> string)
    (setHoursZero : Date -> Date) todayNow activeNow email password st :
  (forall u,
     find (fun x => String.eqb (user_email x) (toLowerCase email)) (users st) = Some u ->
     bcrypt_compare password (user_password u) = false) ->
  login bcrypt_compare toLowerCase setHoursZero todayNow activeNow email password st
  = (st, Error 400 "Invalid credentials").
Proof.
  intros H. unfold login, tryCatch. unfold bind at 1.
  unfold User_findOneByEmail, gets.
  destruct (find _ (users st)) as [u|] eqn:E; [|reflexivity].
  now rewrite (H u eq_refl).
Qed.

Lemma login_rejects_bad_credentials_witness :
  (forall u,
     find (fun x => String.eqb (user_email x) "alice@example.com") (users aliceStore)
     = Some u ->
     String.eqb "wrong" (user_password u) = false)
  /\ login String.eqb (fun x => x) utcMidnight 5 5 "alice@example.com" "wrong" aliceStore
     = (aliceStore, Error 400 "Invalid credentials").
Proof.
  assert (H : forall u,
     find (fun x => String.eqb (user_email x) "alice@example.com") (users aliceStore)
     = Some u ->
     String.eqb "wrong" (user_password u) = false).
  { intros u E. vm_compute in E. injection E as <-. reflexivity. }
  split; [exact H|].
  apply (login_rejects_bad_credentials String.eqb (fun x => x) utcMidnight 5 5
           "alice@example.com" "wrong" aliceStore H).
Defined.

(** Logging in again, on a host in UTC.  After a successful login at time
    [t1], the next successful login raises the streak by one when it falls
    on the next calendar day, leaves it alone on the same day, and resets
    it to 1 after a gap of two days or more. *)
Theorem login_again_utc
    (bcrypt_compare : string -> string -> bool) (toLowerCase : string -> string)
    t0 t1 t2 t3 email password st u :
  NoDup (map user_id (users st)) ->
  find (fun x => String.eqb (user_email x) (toLowerCase email)) (users st) = Some u ->
  bcrypt_compare password (user_password u) = true ->
  exists st1 first st2 second,
    login bcrypt_compare toLowerCase utcMidnight t0 t1 email password st
    = (st1, Json 200 first)
    /\ login bcrypt_compare toLowerCase utcMidnight t2 t3 email password st1
       = (st2, Json 200 second)
    /\ (utcDay t2 = utcDay t1 + 1 -> login_streak second = login_streak first + 1)
    /\ (utcDay t2 = utcDay t1 -> login_streak second = login_streak first)
    /\ (utcDay t1 + 1 < utcDay t2 -> login_streak second = 1)
    /\ login_points second = login_points first.
Proof.
  intros ND Hf Hpw.
  set (u1 := setLastActiveDate t1 (updateStreak utcMidnight t0 u)).
  destruct (updateStreak_fields utcMidnight t0 u) as (Hem & Hpt & Hpass).
  assert (Hf1 : find (fun x => String.eqb (user_email x) (toLowerCase email))
                     (users (withUsers (replaceFirst (fun x => N.eqb (user_id x) (user_id u))
                                                     u1 (users st)) st)) = Some u1).
  { cbn [users withUsers].
    apply (find_replaceFirst_key user_id _ u1 u (users st) ND Hf).
    unfold u1. cbn [user_email setLastActiveDate]. rewrite Hem.
    apply find_some in Hf as [_ Hf]. exact Hf. }
  assert (Hpw1 : bcrypt_compare password (user_password u1) = true).
  { unfold u1. cbn [user_password setLastActiveDate]. now rewrite Hpass. }
  eexists _, _, _, _.
  split; [apply (login_ok bcrypt_compare toLowerCase utcMidnight t0 t1 email password
                   st u Hf Hpw)|].
  split; [apply (login_ok bcrypt_compare toLowerCase utcMidnight t2 t3 email password
                   _ u1 Hf1 Hpw1)|].
  fold u1. cbn [login_streak login_points user_streak user_points setLastActiveDate].
  assert (Hd : (dayDiffOf utcMidnight t2 (user_lastActiveDate u1)
                == inject_Z (utcDay t2 - utcDay t1))%Q)
    by (unfold u1; cbn [user_lastActiveDate setLastActiveDate]; apply dayDiffOf_utc).
  split; [|split; [|split]].
  - intros E. apply updateStreak_next. rewrite Hd.
    replace (utcDay t2 - utcDay t1) with 1 by lia. reflexivity.
  - intros E. apply updateStreak_keep. rewrite Hd.
    replace (utcDay t2 - utcDay t1) with 0 by lia. discriminate.
  - intros E. apply updateStreak_reset. rewrite Hd.
    unfold Qlt. simpl. lia.
  - destruct (updateStreak_fields utcMidnight t2 u1) as (_ & Hp2 & _). exact Hp2.
Qed.

Lemma login_again_utc_witness :
  NoDup (map user_id (users aliceStore))
  /\ find (fun x => String.eqb (user_email x) "alice@example.com") (users aliceStore)
     = Some alice
  /\ String.eqb "hash-a" (user_password alice) = true
  /\ exists st1 first st2 second,
       login String.eqb (fun x => x) utcMidnight (hour * 30) (hour * 30)
             "alice@example.com" "hash-a" aliceStore
       = (st1, Json 200 first)
       /\ login String.eqb (fun x => x) utcMidnight (hour * 50) (hour * 50)
                "alice@example.com" "hash-a" st1
          = (st2, Json 200 second)
       /\ (utcDay (hour * 50) = utcDay (hour * 30) + 1 ->
           login_streak second = login_streak first + 1)
       /\ (utcDay (hour * 50) = utcDay (hour * 30) ->
           login_streak second = login_streak first)
       /\ (utcDay (hour * 30) + 1 < utcDay (hour * 50) -> login_streak second = 1)
       /\ login_points second = login_points first.
Proof.
  assert (ND : NoDup (map user_id (users aliceStore))).
  { repeat constructor; simpl; intuition discriminate. }
  split; [exact ND|]. split; [reflexivity|]. split; [reflexivity|].
  apply (login_again_utc String.eqb (fun x => x) (hour * 30) (hour * 30)
           (hour * 50) (hour * 50) "alice@example.com" "hash-a" aliceStore alice);
    [exact ND | reflexivity | reflexivity].
Defined.

(** * Subsection orders *)

Lemma createSubsection_subsections now auth sectionId title st :
  subsections (fst (createSubsection now auth sectionId title st)) = subsections st
  \/ exists s,
       subsections (fst (createSubsection now auth sectionId title st))
       = subsections st ++ [s]
       /\ sub_order s
          = Z.of_nat (countDocuments (inSection (sub_sectionId s)) (subsections st)).
Proof.
  destruct auth as [| |userId]; [now left | now left |].
  unfold createSubsection, authMiddleware.
  destruct (find _ (users st)) as [u|] eqn:Hu; [|now left].
  destruct title as [t|]; [|now left].
  destruct (String.eqb t "") eqn:Et; [now left|].
  right. eexists. split; reflexivity.
Qed.

Lemma createSubsection_subContiguous st op :
  subContiguous st -> subContiguous (runSubCreate st op).
Proof.
  intros Hc sectionId. unfold runSubCreate.
  destruct (createSubsection_subsections (sc_now op) (Bearer (sc_userId op))
              (sc_sectionId op) (sc_title op) st) as [E|(s & E & Ho)].
  - unfold subOrdersOf, countDocuments in *. rewrite E. apply Hc.
  - pose proof (Hc sectionId) as Hs.
    unfold subOrdersOf, countDocuments in *. rewrite E.
    rewrite filter_app, map_app. cbn [filter].
    destruct (inSection sectionId s) eqn:Es.
    + unfold inSection in Es. apply N.eqb_eq in Es. rewrite Es in Ho.
      rewrite length_app. cbn [List.length map]. rewrite Nat.add_1_r.
      rewrite seq_S, map_app. cbn [map Nat.add]. now rewrite <- Hs, Ho.
    + cbn [map]. rewrite !app_nil_r. exact Hs.
Qed.

(** Subsections are numbered per section: starting from a store without
    subsections, after any sequence of subsection creations, by any users
    and in any sections, the orders within each section are 0, 1, ...,
    count - 1 in creation order, and so pairwise distinct. *)
Theorem subsection_orders_contiguous ops st sectionId :
  subsections st = [] ->
  let st' := runSubCreates ops st in
  subOrdersOf sectionId st'
  = map Z.of_nat (seq 0 (countDocuments (inSection sectionId) (subsections st')))
  /\ NoDup (subOrdersOf sectionId st').
Proof.
  intros Hempty. cbv zeta.
  assert (Hc : subContiguous (runSubCreates ops st)).
  { unfold runSubCreates.
    assert (H0 : subContiguous st).
    { intros x. unfold subOrdersOf, countDocuments. now rewrite Hempty. }
    clear Hempty. revert st H0.
    induction ops as [|op ops IH]; intros st H0; [exact H0|].
    cbn [fold_left]. apply IH. now apply createSubsection_subContiguous. }
  split; [apply Hc|]. rewrite (Hc sectionId).
  apply Injective_map_NoDup; [|apply seq_NoDup].
  intros a b. apply Nat2Z.inj.
Qed.

Lemma subsection_orders_contiguous_witness :
  subsections aliceStore = []
  /\ let st' := runSubCreates
                  [mkSubCreate 1 1 10 (Some "Algebra"); mkSubCreate 2 2 10 (Some "Logic");
                   mkSubCreate 3 1 77 (Some "Elsewhere"); mkSubCreate 4 1 10 (Some "Sets")]
                  aliceStore in
     subOrdersOf 10 st'
     = map Z.of_nat (seq 0 (countDocuments (inSection 10) (subsections st')))
     /\ NoDup (subOrdersOf 10 st').
Proof.
  split; [reflexivity|].
  apply (subsection_orders_contiguous
           [mkSubCreate 1 1 10 (Some "Algebra"); mkSubCreate 2 2 10 (Some "Logic");
            mkSubCreate 3 1 77 (Some "Elsewhere"); mkSubCreate 4 1 10 (Some "Sets")]
           aliceStore 10%N).
  reflexivity.
Defined.

Example subsection_orders_example :
  subOrdersOf 10
    (runSubCreates
       [mkSubCreate 1 1 10 (Some "Algebra"); mkSubCreate 2 2 10 (Some "Logic");
        mkSubCreate 3 1 77 (Some "Elsewhere"); mkSubCreate 4 1 10 (Some "Sets")]
       aliceStore) = [0; 1; 2].
Proof. reflexivity. Qed.

(** * Tasks of a day and calendar statistics *)

Lemma inRange_utc date o :
  inRange (utcMidnight date) (utcEndOfDay (utcMidnight date)) o = onUtcDay date o.
Proof.
  destruct o as [x|]; [|reflexivity].
  unfold inRange, onUtcDay, utcEndOfDay, utcMidnight, utcDay.
  assert (Hm : 0 < msPerDay) by reflexivity.
  set (m := msPerDay) in *. set (q := date / m).
  rewrite Z.div_mul by lia.
  apply eq_true_iff_eq. rewrite andb_true_iff, !Z.leb_le, Z.eqb_eq.
  split.
  - intros [H1 H2]. symmetry. apply (Z.div_unique x m q (x - q * m)); lia.
  - intros E. pose proof (Z.div_mod x m ltac:(lia)) as Hx.
    pose proof (Z.mod_pos_bound x m Hm) as Hr. rewrite E in Hx. lia.
Qed.

(** On a host in UTC, GET /api/tasks/date/:date lists, in store order, the
    requesting user's tasks whose target date or deadline falls on the
    calendar day of [date], at whatever time of that day, and no others;
    it writes nothing. *)
Theorem tasksByDate_utc date userId st u :
  findUser userId st = Some u ->
  exists result,
    tasksByDate utcMidnight utcEndOfDay date (Bearer userId) st = (st, Json 200 result)
    /\ map dated_task result
       = filter (fun t => ownTask userId t
                          && (onUtcDay date (task_targetDate t)
                              || onUtcDay date (task_deadline t)))
                (tasks st).
Proof.
  intros Hu. pose proof (findUser_id _ _ _ Hu) as Hid.
  eexists. split.
  - unfold tasksByDate, authMiddleware. unfold findUser in Hu. rewrite Hu.
    run_route. rewrite Hid. reflexivity.
  - rewrite map_map. cbn [dated_task populateSection]. rewrite map_id.
    apply filter_ext. intros t. unfold datedQuery, ownTask.
    now rewrite !inRange_utc.
Qed.

Lemma tasksByDate_utc_witness :
  findUser 1 weekStore = Some alice
  /\ exists result,
       tasksByDate utcMidnight utcEndOfDay tenOClock (Bearer 1) weekStore
       = (weekStore, Json 200 result)
       /\ map dated_task result
          = filter (fun t => ownTask 1 t
                             && (onUtcDay tenOClock (task_targetDate t)
                                 || onUtcDay tenOClock (task_deadline t)))
                   (tasks weekStore).
Proof.
  split; [reflexivity|].
  apply (tasksByDate_utc tenOClock 1%N weekStore alice). reflexivity.
Defined.

(** The task due at six in the evening is listed for its day when asked
    at ten in the morning. *)
Example tasksByDate_lists_tonight :
  match snd (tasksByDate utcMidnight utcEndOfDay tenOClock (Bearer 1) weekStore) with
  | Json 200 result => map dated_task result = [dueTonight]
  | _ => False
  end.
Proof. vm_compute. reflexivity. Qed.

Lemma bumpDay_totalOf day completed stats :
  totalOf (bumpDay day completed stats) = S (totalOf stats).
Proof.
  induction stats as [|[d [t c]] r IH]; simpl; [reflexivity|].
  destruct (d =? day); [reflexivity|].
  destruct (day <? d); simpl; [reflexivity|]. rewrite IH. lia.
Qed.

Lemma bumpDay_completedIn day completed stats :
  completedIn (bumpDay day completed stats)
  = (completedIn stats + if completed then 1 else 0)%nat.
Proof.
  induction stats as [|[d [t c]] r IH]; simpl.
  - destruct completed; reflexivity.
  - destruct (d =? day); simpl; [destruct completed; simpl; lia|].
    destruct (day <? d); simpl; [destruct completed; simpl; lia|].
    rewrite IH. lia.
Qed.

Lemma bumpDay_entryOk day completed stats :
  Forall entryOk stats -> Forall entryOk (bumpDay day completed stats).
Proof.
  induction stats as [|[d [t c]] r IH]; intros H; simpl.
  - constructor; [|constructor]. unfold entryOk. simpl. destruct completed; lia.
  - inversion H as [|e es He Hr]; subst.
    destruct (d =? day).
    + constructor; [|exact Hr]. unfold entryOk in *. simpl in *.
      destruct completed; lia.
    + destruct (day <? d).
      * constructor; [|exact H]. unfold entryOk. simpl. destruct completed; lia.
      * constructor; [exact He | now apply IH].
Qed.

Lemma bumpDay_HdRel k day completed stats :
  k < day ->
  HdRel Z.lt k (map fst stats) ->
  HdRel Z.lt k (map fst (bumpDay day completed stats)).
Proof.
  intros Hk H. destruct stats as [|[d [t c]] r]; simpl.
  - now constructor.
  - simpl in H. inversion H; subst.
    destruct (d =? day); [now constructor|].
    destruct (day <? d); now constructor.
Qed.

Lemma bumpDay_Sorted day completed stats :
  Sorted Z.lt (map fst stats) -> Sorted Z.lt (map fst (bumpDay day completed stats)).
Proof.
  induction stats as [|[d [t c]] r IH]; intros H; simpl.
  - repeat constructor.
  - simpl in H. inversion H as [|a l Hs Hh]; subst.
    destruct (d =? day) eqn:E; [exact H|].
    destruct (day <? d) eqn:L.
    + simpl. constructor; [exact H|]. constructor. now apply Z.ltb_lt.
    + simpl. constructor; [now apply IH|].
      apply bumpDay_HdRel; [|exact Hh].
      apply Z.eqb_neq in E. apply Z.ltb_ge in L. lia.
Qed.

Lemma datedQuery_anchor userId start end_ t :
  datedQuery userId start end_ t = true -> anchorDate t <> None.
Proof.
  unfold datedQuery, anchorDate, inRange. intros H.
  apply andb_prop in H as [_ H].
  destruct (task_targetDate t); [discriminate|].
  destruct (task_deadline t); [discriminate|]. discriminate.
Qed.

Lemma calendar_fold (getDate : Date -> Z) (ts : list TaskDoc) :
  Forall (fun t => anchorDate t <> None) ts ->
  forall acc,
    Forall entryOk acc -> Sorted Z.lt (map fst acc) ->
    let stats := fold_left (calendarStep getDate) ts acc in
    totalOf stats = (totalOf acc + List.length ts)%nat
    /\ completedIn stats
       = (completedIn acc + List.length (filter isCompleted ts))%nat
    /\ Forall entryOk stats
    /\ Sorted Z.lt (map fst stats).
Proof.
  induction 1 as [|t ts Ht _ IH]; intros acc Hok Hs; cbn [fold_left filter List.length].
  - repeat split; [lia | lia | exact Hok | exact Hs].
  - unfold calendarStep at 2 4 6 8.
    destruct (anchorDate t) as [date|]; [|congruence].
    destruct (IH (bumpDay (getDate date) (isCompleted t) acc)
                 (bumpDay_entryOk _ _ _ Hok) (bumpDay_Sorted _ _ _ Hs))
      as (H1 & H2 & H3 & H4).
    rewrite H1, H2, bumpDay_totalOf, bumpDay_completedIn.
    repeat split; [lia | | exact H3 | exact H4].
    destruct (isCompleted t); cbn [List.length]; lia.
Qed.

(** GET /api/tasks/calendar/:year/:month, for any host calendar: the
    totals over all days add up to the number of the user's tasks matched
    by the month query and the completed counts to the number of completed
    ones among them; every listed day has at least one task and no more
    completed tasks than tasks; the days are in strictly ascending order,
    so no day is listed twice. *)
Theorem calendarStats_totals
    (monthStart monthEnd : Z -> Z -> Date) (getDate : Date -> Z)
    year month userId st u :
  findUser userId st = Some u ->
  let matched :=
    filter (datedQuery userId (monthStart year month) (monthEnd year month)) (tasks st) in
  exists stats,
    calendarStats monthStart monthEnd getDate year month (Bearer userId) st
    = (st, Json 200 stats)
    /\ totalOf stats = List.length matched
    /\ completedIn stats = List.length (filter isCompleted matched)
    /\ Forall entryOk stats
    /\ Sorted Z.lt (map fst stats).
Proof.
  intros Hu matched. pose proof (findUser_id _ _ _ Hu) as Hid.
  eexists. split.
  - unfold calendarStats, authMiddleware. unfold findUser in Hu. rewrite Hu.
    run_route. rewrite Hid. reflexivity.
  - fold matched.
    assert (Ha : Forall (fun t => anchorDate t <> None) matched).
    { apply Forall_forall. intros t Ht. unfold matched in Ht.
      apply filter_In in Ht as [_ Ht]. now apply (datedQuery_anchor _ _ _ _ Ht). }
    destruct (calendar_fold getDate matched Ha [] (Forall_nil _) (Sorted_nil _))
      as (H1 & H2 & H3 & H4).
    repeat split; assumption.
Qed.

Lemma calendarStats_totals_witness :
  findUser 1 unionStore = Some alice
  /\ let matched :=
       filter (datedQuery 1 (january1970Start 1970 1) (january1970End 1970 1))
              (tasks unionStore) in
     exists stats,
       calendarStats january1970Start january1970End january1970Date 1970 1
                     (Bearer 1) unionStore
       = (unionStore, Json 200 stats)
       /\ totalOf stats = List.length matched
       /\ completedIn stats = List.length (filter isCompleted matched)
       /\ Forall entryOk stats
       /\ Sorted Z.lt (map fst stats).
Proof.
  split; [reflexivity|].
  apply (calendarStats_totals january1970Start january1970End january1970Date
           1970 1 1%N unionStore alice).
  reflexivity.
Defined.

Example calendar_of_union_store :
  snd (calendarStats january1970Start january1970End january1970Date 1970 1
                     (Bearer 1) unionStore)
  = Json 200 [(1, (4%nat, 3%nat))].
Proof. reflexivity. Qed.

(** * Validation errors and the week in UTC *)

(** Creating a section, a subsection or a task without a title, or with
    the empty string as title, fails validation: the answer is 500 "Server
    error" and nothing is stored, not even a consumed id. *)
Theorem create_without_title_rejected now userId st u icon sectionId body title :
  findUser userId st = Some u ->
  title = None \/ title = Some "" ->
  in_title body = title ->
  createSection now (Bearer userId) title icon st = (st, Error 500 "Server error")
  /\ createSubsection now (Bearer userId) sectionId title st
     = (st, Error 500 "Server error")
  /\ createTask now (Bearer userId) body st = (st, Error 500 "Server error").
Proof.
  intros Hu Ht Hb.
  unfold createSection, createSubsection, createTask, authMiddleware.
  unfold findUser in Hu. rewrite Hu, Hb.
  destruct Ht as [-> | ->]; repeat split; try reflexivity;
    destruct (in_sectionId body), (in_type body); reflexivity.
Qed.

Lemma create_without_title_rejected_witness :
  findUser 1 aliceStore = Some alice
  /\ (Some "" = None \/ Some "" = Some "")
  /\ in_title (mkTaskInput (Some 10%N) None (Some "") (Some Daily) None None None None)
     = Some ""
  /\ createSection 5 (Bearer 1) (Some "") None aliceStore
     = (aliceStore, Error 500 "Server error")
  /\ createSubsection 5 (Bearer 1) 10 (Some "") aliceStore
     = (aliceStore, Error 500 "Server error")
  /\ createTask 5 (Bearer 1)
                (mkTaskInput (Some 10%N) None (Some "") (Some Daily) None None None None)
                aliceStore
     = (aliceStore, Error 500 "Server error").
Proof.
  split; [reflexivity|]. split; [now right|]. split; [reflexivity|].
  apply (create_without_title_rejected 5 1%N aliceStore alice None 10%N
           (mkTaskInput (Some 10%N) None (Some "") (Some Daily) None None None None)
           (Some "")); [reflexivity | now right | reflexivity].
Defined.

(** On a host in UTC the weekly heatmap answers seven summaries for the
    seven consecutive calendar days that end today, oldest first; in each
    of them the completed count is at most the total, and the store is
    left as it was. *)
Theorem weekly_week_utc now userId st u :
  findUser userId st = Some u ->
  exists days,
    weekly utcDay now (Bearer userId) st = (st, Json 200 days)
    /\ map (fun s => utcDay (day_date s)) days
       = [utcDay now - 6; utcDay now - 5; utcDay now - 4; utcDay now - 3;
          utcDay now - 2; utcDay now - 1; utcDay now]
    /\ Forall (fun s => (day_completed s <= day_total s)%nat) days.
Proof.
  intros Hu. pose proof (findUser_id _ _ _ Hu) as Hid.
  eexists. split.
  - unfold weekly, authMiddleware. unfold findUser in Hu. rewrite Hu.
    run_route. rewrite Hid. reflexivity.
  - split.
    + cbn [map downFrom day_date daySummary].
      change (24 * 60 * 60 * 1000) with msPerDay.
      repeat match goal with
             | |- context [?n - Z.of_nat ?k * 24 * 60 * 60 * 1000] =>
                 replace (n - Z.of_nat k * 24 * 60 * 60 * 1000)
                   with (n - Z.of_nat k * msPerDay) by (unfold msPerDay; lia)
             end.
      rewrite !utcDay_days_before. cbn [Z.of_nat Pos.of_succ_nat Pos.succ].
      now rewrite Z.sub_0_r.
    + apply Forall_forall. intros s Hs. apply in_map_iff in Hs as (i & <- & _).
      cbn [day_completed day_total daySummary]. apply filter_length_le.
Qed.

Lemma weekly_week_utc_witness :
  findUser 1 weekStore = Some alice
  /\ exists days,
       weekly utcDay tenOClock (Bearer 1) weekStore = (weekStore, Json 200 days)
       /\ map (fun s => utcDay (day_date s)) days
          = [utcDay tenOClock - 6; utcDay tenOClock - 5; utcDay tenOClock - 4;
             utcDay tenOClock - 3; utcDay tenOClock - 2; utcDay tenOClock - 1;
             utcDay tenOClock]
       /\ Forall (fun s => (day_completed s <= day_total s)%nat) days.
Proof.
  split; [reflexivity|].
  apply (weekly_week_utc tenOClock 1%N weekStore alice). reflexivity.
Defined.


(** * The streak across a daylight-saving change *)

(** C4 at the failing input.  On a host in New York the two local
    midnights around a clock change are 23 or 25 hours apart, so [dayDiff]
    is 23/24 or 25/24 although the two dates are one calendar day apart.
    Erin, with a streak of 6, logs in on the day after her last activity:
    after the change of 10 March her streak stays at 6, and after the
    change of 3 November it is reset to 1; in neither case does it become
    7. *)
Theorem login_streak_across_dst :
  (zoneDay springForward est edt marchMorning
   - zoneDay springForward est edt marchNoon = 1
   /\ (dayDiffOf (zoneMidnight springForward est edt) marchMorning marchNoon
       == 23 # 24)%Q
   /\ match snd (login String.eqb (fun s => s) (zoneMidnight springForward est edt)
                       marchMorning marchMorning "erin@example.com" "hash-e"
                       (erinStore marchNoon)) with
      | Json 200 body => login_streak body = 6
      | _ => False
      end)
  /\ (zoneDay fallBack edt est novemberMorning
      - zoneDay fallBack edt est novemberNoon = 1
      /\ (dayDiffOf (zoneMidnight fallBack edt est) novemberMorning novemberNoon
          == 25 # 24)%Q
      /\ match snd (login String.eqb (fun s => s) (zoneMidnight fallBack edt est)
                          novemberMorning novemberMorning "erin@example.com" "hash-e"
                          (erinStore novemberNoon)) with
         | Json 200 body => login_streak body = 1
         | _ => False
         end).
Proof. vm_compute. repeat split; reflexivity. Qed.

(** Away from a clock change the same host counts the next day as one
    day: last active on 11 March, login on 12 March, streak 7. *)
Example login_streak_new_york_plain_day :
  match snd (login String.eqb (fun s => s) (zoneMidnight springForward est edt)
                   (marchMorning + msPerDay) (marchMorning + msPerDay)
                   "erin@example.com" "hash-e" (erinStore marchMorning)) with
  | Json 200 body => login_streak body = 7
  | _ => False
  end.
Proof. vm_compute. reflexivity. Qed.
